(** * Surface Layers API: a shallow embedding of [MapLayers/api.py]

    The development follows the Python module function by function:
    [get_bbox], [build_combined_query], [fetch_overpass_data],
    [classify_and_convert], [generate_layers] and the numeric parts of
    [get_surface_temperature].

    Numbers.  The Python code computes on [float], that is IEEE 754
    binary64.  The functions are written once over an interface [Arith]
    of the operations the code uses, and read at two instances:
    - [binary64]: Rocq's primitive floats, the arithmetic Python runs;
      used to evaluate the code on concrete inputs;
    - [rounded rnd]: real numbers where every operation is followed by a
      rounding [rnd]; with [rnd] the identity this is exact arithmetic,
      and with a rounding of relative error at most [2^-53] it is the
      usual model of binary64 away from overflow and underflow.

    Containers.  Python dicts with string keys are [gmap string _], the
    set literals are [gset string], lists are [list]. *)

From Stdlib Require Import Floats QArith Reals Lra Lia ZArith.
From stdpp Require Import gmap strings list pretty.

Set Warnings "-inexact-float".

(** ** The arithmetic of Python floats *)

Class Arith (F : Type) := {
  lit : Q → F;              (* a numeric literal of the source *)
  add : F → F → F;
  sub : F → F → F;
  mul : F → F → F;
  quot : F → F → F;         (* the quotient, for a divisor that is not zero *)
  eqb : F → F → bool;
  ltb : F → F → bool;
  leb : F → F → bool;
}.

Declare Scope arith_scope.
Delimit Scope arith_scope with ar.
Infix "⊕" := add (at level 50, left associativity) : arith_scope.
Infix "⊖" := sub (at level 50, left associativity) : arith_scope.
Infix "⊗" := mul (at level 40, left associativity) : arith_scope.
Infix "⊘" := quot (at level 40, left associativity) : arith_scope.
Infix "≐" := eqb (at level 70, no associativity) : arith_scope.
Infix "≺" := ltb (at level 70, no associativity) : arith_scope.
Infix "≼" := leb (at level 70, no associativity) : arith_scope.
Local Open Scope arith_scope.

(** Python's [x / y] on floats: [ZeroDivisionError] ([None]) when [y == 0.0]. *)
Definition truediv {F} `{Arith F} (x y : F) : option F :=
  if y ≐ lit 0 then None else Some (x ⊘ y).
Infix "⨸" := truediv (at level 40, left associativity) : arith_scope.

(** Python's builtin [max(a, b)]: [a] is kept unless [b > a]. *)
Definition pymax {F} `{Arith F} (a b : F) : F :=
  if a ≺ b then b else a.

(** *** binary64 *)

Definition float_of_Z (z : Z) : float :=
  match z with
  | Z0 => PrimFloat.zero
  | Zpos p => PrimFloat.of_uint63 (Uint63.of_Z (Zpos p))
  | Zneg p => PrimFloat.opp (PrimFloat.of_uint63 (Uint63.of_Z (Zpos p)))
  end.

(** The double nearest to a decimal literal [n/d]: both [n] and [d] are
    below [2^53] for the literals of this program, hence exact, and the
    division rounds to nearest. *)
Definition float_of_Q (q : Q) : float :=
  PrimFloat.div (float_of_Z (Qnum q)) (float_of_Z (Zpos (Qden q))).

#[export] Instance binary64 : Arith float := {|
  lit := float_of_Q;
  add := PrimFloat.add;
  sub := PrimFloat.sub;
  mul := PrimFloat.mul;
  quot := PrimFloat.div;
  eqb := PrimFloat.eqb;
  ltb := PrimFloat.ltb;
  leb := PrimFloat.leb;
|}.

(** *** Real numbers with a rounding after every operation *)

Definition Rltb (x y : R) : bool := if Rlt_dec x y then true else false.
Definition Rleb (x y : R) : bool := if Rle_dec x y then true else false.
Definition Reqb (x y : R) : bool := if Req_dec_T x y then true else false.

Definition rounded (rnd : R → R) : Arith R := {|
  lit q := rnd (Q2R q);
  add x y := rnd (x + y)%R;
  sub x y := rnd (x - y)%R;
  mul x y := rnd (x * y)%R;
  quot x y := rnd (x / y)%R;
  eqb := Reqb;
  ltb := Rltb;
  leb := Rleb;
|}.

(** Exact arithmetic: nothing is rounded. *)
Definition exact : Arith R := rounded (λ x, x).

(** ** Requests *)

(** [class LayerRequest(BaseModel)]. *)
Record LayerRequest (F : Type) := {
  lat : F;
  lon : F;
  size_km : F;
}.
Arguments lat {F} _.
Arguments lon {F} _.
Arguments size_km {F} _.

(** The [Field(..., ge=, le=)] constraints of [LayerRequest]. *)
Definition LayerRequest_valid {F} `{Arith F} (r : LayerRequest F) : bool :=
  (lit (-90) ≼ lat r) && (lat r ≼ lit 90) &&
  (lit (-180) ≼ lon r) && (lon r ≼ lit 180) &&
  (lit 0.5 ≼ size_km r) && (size_km r ≼ lit 10).

(** ** [get_bbox] *)

Section GeoBox.
Context {F : Type} `{Arith F}.
(** [math.radians] and [math.cos], functions of the C library. *)
Variable radians : F → F.
Variable cos : F → F.

(** The box is [(south, west, north, east)]; [None] is the
    [ZeroDivisionError] of the last division, the one whose divisor is
    computed (a literal divisor is not zero). *)
Definition get_bbox (center_lat center_lon square_size_km : F)
  : option (F * F * F * F) :=
  let half_size_km := square_size_km ⊘ lit 2 in
  let lat_offset := half_size_km ⊘ lit 111.0 in
  lon_offset ← half_size_km ⨸ (lit 111.0 ⊗ cos (radians center_lat));
  Some (center_lat ⊖ lat_offset,
        center_lon ⊖ lon_offset,
        center_lat ⊕ lat_offset,
        center_lon ⊕ lon_offset).
End GeoBox.

(** [math.radians] and [math.cos] on real numbers. *)
Definition Rradians (x : R) : R := (x * PI / 180)%R.

(** ** [build_combined_query] *)

Definition nl : string := String (Ascii.ascii_of_nat 10) EmptyString.
Definition dq : string := String (Ascii.ascii_of_nat 34) EmptyString.
Definition quoted (s : string) : string := dq +:+ s +:+ dq.

Section Query.
Context {F : Type}.
(** [str] of a float, as an f-string prints it. *)
Variable fmt : F → string.

Definition build_combined_query (bbox : F * F * F * F) : string :=
  let '(b0, b1, b2, b3) := bbox in
  let b := fmt b0 +:+ "," +:+ fmt b1 +:+ "," +:+ fmt b2 +:+ "," +:+ fmt b3 in
  let way (sel : string) := "  way" +:+ sel +:+ "(" +:+ b +:+ ");" +:+ nl in
  let key_re (k re : string) := "[" +:+ quoted k +:+ "~" +:+ quoted re +:+ "]" in
  nl +:+ "[out:json][timeout:90][maxsize:536870912];" +:+ nl +:+
  "(" +:+ nl +:+
  way "[building]" +:+
  way ("[" +:+ quoted "amenity" +:+ "=" +:+ quoted "parking" +:+ "]") +:+
  way (key_re "landuse" "^(industrial|commercial|retail|construction|railway)$") +:+
  way ("[" +:+ quoted "highway" +:+ "]") +:+
  way ("[" +:+ quoted "railway" +:+ "]") +:+
  way (key_re "aeroway" "^(runway|taxiway|apron|helipad)$") +:+
  way (key_re "leisure" "^(pitch|track|sports_centre)$") +:+
  way (key_re "natural" "^(wood|grassland|scrub|wetland|beach|sand)$") +:+
  way (key_re "landuse" "^(forest|farmland|meadow|grass|orchard|vineyard|allotments|cemetery|recreation_ground)$") +:+
  way (key_re "leisure" "^(park|garden|golf_course|nature_reserve)$") +:+
  ");" +:+ nl +:+
  "out geom;" +:+ nl.
End Query.

(** ** Exceptions *)

(** The exceptions of this module: FastAPI's [HTTPException] and the
    [ZeroDivisionError] of a float division. *)
Inductive exn :=
  | HTTPException (status_code : Z) (detail : string)
  | ZeroDivisionError.

(** ** [fetch_overpass_data] *)

Definition OVERPASS_URLS : list string := [
  "https://overpass-api.de/api/interpreter";
  "https://overpass.kumi.systems/api/interpreter";
  "https://overpass.nchc.org.tw/api/interpreter"
].

(** An [httpx.Response], as far as the code looks at it: the status and
    what [response.json()] gives, [None] when the body does not parse. *)
Record Response (Dict : Type) := {
  status_code : Z;
  json : option Dict;
}.
Arguments status_code {Dict} _.
Arguments json {Dict} _.

(** Modelled from the spec: [httpx] is not part of the repository;
    [raise_for_status] raises on every status that is not 2xx ("non-2xx
    status" is a failure).  [true] when it does not raise. *)
Definition raise_for_status {Dict} (response : Response Dict) : bool :=
  (200 <=? status_code response)%Z && (status_code response <=? 299)%Z.

Section Overpass.
Context {Dict World : Type}.
(** [await client.post(url, data={'data': query})] in a state of the
    network: the new state and the response, [None] when the call
    raises (connection error, timeout). *)
Variable post : string → string → World → World * option (Response Dict).

(** The body of the [try]: [Some] the parsed response, [None] when any
    of the three calls raised and the [except Exception] caught it. *)
Definition try_endpoint (url query : string) (w : World) : World * option Dict :=
  let '(w', r) := post url query w in
  match r with
  | None => (w', None)
  | Some response =>
      if raise_for_status response then (w', json response) else (w', None)
  end.

(** The [for url in ...] loop, and the [raise] after it. *)
Fixpoint fetch_from (urls : list string) (query : string) (w : World)
  : World * (exn + Dict) :=
  match urls with
  | [] => (w, inl (HTTPException 503 "All Overpass API servers are unavailable"))
  | url :: urls' =>
      match try_endpoint url query w with
      | (w', Some data) => (w', inr data)
      | (w', None) => fetch_from urls' query w'
      end
  end.

Definition fetch_overpass_data (query : string) (w : World) : World * (exn + Dict) :=
  fetch_from OVERPASS_URLS query w.

(** Every endpoint of [urls] tried in turn, whatever the outcomes:
    the final state and the outcomes in order.  Used to state which
    calls [fetch_from] makes. *)
Fixpoint try_all (urls : list string) (query : string) (w : World)
  : World * list (option Dict) :=
  match urls with
  | [] => (w, [])
  | url :: urls' =>
      let '(w', r) := try_endpoint url query w in
      let '(w'', rs) := try_all urls' query w' in
      (w'', r :: rs)
  end.
End Overpass.

(** ** [classify_and_convert] *)

(** Classification rules. *)
Definition sealed_tags : gset string :=
  {[ "building"; "highway"; "railway"; "aeroway"; "amenity" ]}.
Definition sealed_landuse : gset string :=
  {[ "industrial"; "commercial"; "retail"; "construction"; "railway" ]}.
Definition sealed_leisure : gset string :=
  {[ "pitch"; "track"; "sports_centre" ]}.

(** [tags.get(key) in values]: [None] is in none of the sets. *)
Definition get_in (tags : gmap string string) (key : string) (values : gset string) : bool :=
  match tags !! key with
  | Some v => bool_decide (v ∈ values)
  | None => false
  end.

(** The expression bound to [is_sealed]. *)
Definition is_sealed (tags : gmap string string) : bool :=
  bool_decide (set_Exists (λ tag, is_Some (tags !! tag)) sealed_tags)
  || get_in tags "landuse" sealed_landuse
  || get_in tags "leisure" sealed_leisure.

(** The rule of the specification, in its words: one of five keys is
    present, or [landuse] or [leisure] has one of the listed values. *)
Definition spec_sealed (tags : gmap string string) : Prop :=
  (∃ key, key ∈ ["building"; "highway"; "railway"; "aeroway"; "amenity"] ∧
          is_Some (tags !! key)) ∨
  (∃ v, tags !! "landuse" = Some v ∧
        v ∈ ["industrial"; "commercial"; "retail"; "construction"; "railway"]) ∨
  (∃ v, tags !! "leisure" = Some v ∧
        v ∈ ["pitch"; "track"; "sports_centre"]).

Section Classifier.
(** The JSON numbers of the coordinates, compared with [==]. *)
Context {num : Type} `{EqDecision num}.

(** A member of [elem['geometry']]. *)
Record node := {
  node_lat : num;
  node_lon : num;
}.

(** A member of [osm_data['elements']]: [type] is always there,
    [geometry] and [tags] may be missing. *)
Record element := {
  elem_type : string;
  elem_geometry : option (list node);
  elem_tags : option (gmap string string);
}.

(** The response of Overpass: the [elements] member, when present,
    and its other members ([version], [generator], ...). *)
Record OsmData := {
  osm_elements : option (list element);
  osm_other : gmap string string;
}.

(** A coordinate pair [[lon, lat]]. *)
Definition coord : Type := num * num.

Record Geometry := {
  geometry_type : string;
  coordinates : list (list coord);
}.

Record Feature := {
  feature_type : string;
  geometry : Geometry;
  properties : gmap string string;
}.

Record FeatureCollection := {
  collection_type : string;
  features : list Feature;
}.

(** [not osm_data]: a dict is falsy when it has no member. *)
Definition osm_falsy (osm_data : OsmData) : bool :=
  bool_decide (osm_elements osm_data = None ∧ osm_other osm_data = ∅).

(** [if coords[0] != coords[-1]: coords.append(coords[0])]; the list
    is not empty where the code runs this. *)
Definition close_polygon (coords : list coord) : list coord :=
  match head coords, last coords with
  | Some first, Some final =>
      if bool_decide (first ≠ final) then coords ++ [first] else coords
  | _, _ => coords
  end.

(** One turn of the loop over the elements, on the two lists
    [sealed_features] and [unsealed_features]. *)
Definition classify_elem (acc : list Feature * list Feature) (elem : element)
  : list Feature * list Feature :=
  let '(sealed_features, unsealed_features) := acc in
  if negb (String.eqb (elem_type elem) "way") || negb (bool_decide (is_Some (elem_geometry elem)))
  then acc
  else
    let tags := default ∅ (elem_tags elem) in
    let coords := (λ nd, (node_lon nd, node_lat nd)) <$> default [] (elem_geometry elem) in
    if (length coords <? 3)%nat then acc
    else
      let coords := close_polygon coords in
      let feature := {|
        feature_type := "Feature";
        geometry := {| geometry_type := "Polygon"; coordinates := [coords] |};
        properties := tags |} in
      if is_sealed tags
      then (sealed_features ++ [feature], unsealed_features)
      else (sealed_features, unsealed_features ++ [feature]).

Definition classify_and_convert (osm_data : OsmData)
  : FeatureCollection * FeatureCollection :=
  if osm_falsy osm_data || negb (bool_decide (is_Some (osm_elements osm_data)))
  then
    let empty := {| collection_type := "FeatureCollection"; features := [] |} in
    (empty, empty)
  else
    let '(sealed_features, unsealed_features) :=
      foldl classify_elem ([], []) (default [] (osm_elements osm_data)) in
    ({| collection_type := "FeatureCollection"; features := sealed_features |},
     {| collection_type := "FeatureCollection"; features := unsealed_features |}).

(** *** Vocabulary of the specification *)

(** The elements the loop does not skip: ways with a geometry of at
    least three coordinate pairs. *)
Definition valid_way (elem : element) : bool :=
  String.eqb (elem_type elem) "way" &&
  match elem_geometry elem with
  | Some geom => (3 <=? length geom)%nat
  | None => false
  end.

Definition elem_tags_or_empty (elem : element) : gmap string string :=
  default ∅ (elem_tags elem).

(** The ring of a valid way before it is closed. *)
Definition elem_coords (elem : element) : list coord :=
  (λ nd, (node_lon nd, node_lat nd)) <$> default [] (elem_geometry elem).

(** The feature built for a valid way. *)
Definition feature_of (elem : element) : Feature := {|
  feature_type := "Feature";
  geometry := {| geometry_type := "Polygon";
                 coordinates := [close_polygon (elem_coords elem)] |};
  properties := elem_tags_or_empty elem |}.

(** The two predicates the loop partitions the valid ways by. *)
Definition sealed_way (elem : element) : Prop :=
  valid_way elem && is_sealed (elem_tags_or_empty elem).
Definition unsealed_way (elem : element) : Prop :=
  valid_way elem && negb (is_sealed (elem_tags_or_empty elem)).

(** A ring is closed when its first and last pairs are equal. *)
Definition closed_ring (ring : list coord) : Prop :=
  ∃ c, head ring = Some c ∧ last ring = Some c.
End Classifier.

(** ** [generate_layers] *)

(** [class LayerResponse(BaseModel)]. *)
Record LayerResponse (num : Type) := {
  sealed_geojson : FeatureCollection (num := num);
  unsealed_geojson : FeatureCollection (num := num);
  status : string;
  sealed_count : nat;
  unsealed_count : nat;
}.
Arguments sealed_geojson {num} _.
Arguments unsealed_geojson {num} _.
Arguments status {num} _.
Arguments sealed_count {num} _.
Arguments unsealed_count {num} _.

Section Handler.
Context {F : Type} `{Arith F}.
Context {num : Type} `{EqDecision num}.
Context {World : Type}.
Variable radians : F → F.
Variable cos : F → F.
Variable fmt : F → string.
Variable post : string → string → World → World * option (Response (OsmData (num := num))).

(** The handler of [POST /api/generate-layers], on a validated
    request: the state of the network after it, and what it returns
    or raises. *)
Definition generate_layers (request : LayerRequest F) (w : World)
  : World * (exn + LayerResponse num) :=
  match get_bbox radians cos (lat request) (lon request) (size_km request) with
  | None => (w, inl ZeroDivisionError)
  | Some bbox =>
      let query := build_combined_query fmt bbox in
      match fetch_overpass_data post query w with
      | (w', inl e) => (w', inl e)
      | (w', inr osm_data) =>
          let '(sealed_geojson, unsealed_geojson) := classify_and_convert osm_data in
          (w', inr {|
            sealed_geojson := sealed_geojson;
            unsealed_geojson := unsealed_geojson;
            status := "success";
            sealed_count := length (features sealed_geojson);
            unsealed_count := length (features unsealed_geojson) |})
      end
  end.
End Handler.

(** ** [get_surface_temperature]: calibration and sampling grid *)

(** The image operations of the Earth Engine client that the handler
    composes.  The library is not part of the repository; an image
    ([Image]) is the map of its bands, each a value per pixel, and the
    arithmetic methods act on every pixel of every band. *)
Module ee.
Section Image.
Context {F : Type} `{Arith F} {pixel : Type}.

Local Abbreviation Image := (gmap string (pixel → F)).

Definition select (image : Image) (band : string) : Image :=
  filter (λ kv, kv.1 = band) image.
Definition multiply (image : Image) (k : F) : Image :=
  (λ raster p, raster p ⊗ k) <$> image.
Definition add (image : Image) (k : F) : Image :=
  (λ raster p, raster p ⊕ k) <$> image.
Definition subtract (image : Image) (k : F) : Image :=
  (λ raster p, raster p ⊖ k) <$> image.

(** The value of a band at a pixel. *)
Definition value (image : Image) (band : string) (p : pixel) : option F :=
  (λ raster, raster p) <$> image !! band.
End Image.
End ee.

Section Temperature.
Context {F : Type} `{Arith F} {pixel : Type}.

(** Step 5: the ST band in Kelvin, then in Celsius. *)
Definition st_k (image : gmap string (pixel → F)) : gmap string (pixel → F) :=
  ee.add (ee.multiply (ee.select image "ST_B10") (lit 0.00341802)) (lit 149.0).
Definition st_c (image : gmap string (pixel → F)) : gmap string (pixel → F) :=
  ee.subtract (st_k image) (lit 273.15).

(** Step 7: the sampling scale and the half-width of a square. *)
Definition grid_size : Q := 50.
Definition sample_scale_m (request : LayerRequest F) : F :=
  pymax (size_km request ⊗ lit 1000.0 ⊘ lit grid_size) (lit 30.0).
Definition half_size (request : LayerRequest F) : F :=
  sample_scale_m request ⊘ lit 111320.0.
End Temperature.

(** The calibration of the specification, on a raw value. *)
Definition celsius_of_raw {F} `{Arith F} (raw : F) : F :=
  (raw ⊗ lit 0.00341802 ⊕ lit 149.0) ⊖ lit 273.15.

(** ** A sample response *)

(** A small Overpass response used to run the code: a closed building,
    an open park outline, a cafe, a node, and a way with two points only.
    Coordinates are integers (degrees times [10^4]). *)
Definition sample_node (lon lat : Z) : node :=
  {| node_lat := lat; node_lon := lon |}.

Definition sample_building : element := {|
  elem_type := "way";
  elem_geometry := Some [sample_node 163738 482082; sample_node 163748 482082;
                         sample_node 163748 482092; sample_node 163738 482082];
  elem_tags := Some {[ "building" := "yes" ]} |}.

Definition sample_park : element := {|
  elem_type := "way";
  elem_geometry := Some [sample_node 163700 482000; sample_node 163720 482000;
                         sample_node 163720 482020];
  elem_tags := Some {[ "leisure" := "park" ]} |}.

Definition sample_cafe : element := {|
  elem_type := "way";
  elem_geometry := Some [sample_node 163760 482060; sample_node 163770 482060;
                         sample_node 163770 482070; sample_node 163760 482070];
  elem_tags := Some {[ "amenity" := "cafe" ]} |}.

Definition sample_point : element (num := Z) := {|
  elem_type := "node";
  elem_geometry := None;
  elem_tags := Some {[ "highway" := "crossing" ]} |}.

Definition sample_stub : element := {|
  elem_type := "way";
  elem_geometry := Some [sample_node 163700 482000; sample_node 163720 482000];
  elem_tags := Some {[ "highway" := "residential" ]} |}.

Definition sample_elements : list element :=
  [sample_building; sample_point; sample_park; sample_stub; sample_cafe].

Definition sample_osm : OsmData := {|
  osm_elements := Some sample_elements;
  osm_other := {[ "generator" := "Overpass API" ]} |}.

(** The exception raised after the loop. *)
Definition unavailable : exn :=
  HTTPException 503 "All Overpass API servers are unavailable".

(** ** A sample network *)

(** A network whose state is the log of the URLs called so far and
    whose answer depends on the URL only. *)
Definition logged_post {Dict} (answer : string → option (Response Dict))
  : string → string → list string → list string * option (Response Dict) :=
  λ url query log, (log ++ [url], answer url).

(** The first server is down, the second answers 504, the third
    answers 200 with the sample response. *)
Definition sample_answer (url : string) : option (Response (OsmData (num := Z))) :=
  if String.eqb url "https://overpass-api.de/api/interpreter" then None
  else if String.eqb url "https://overpass.kumi.systems/api/interpreter"
  then Some {| status_code := 504; json := None |}
  else Some {| status_code := 200; json := Some sample_osm |}.

(** ** A sample request *)

(** [math.radians] as CPython computes it: [x * (pi / 180.0)]. *)
Definition radians64 (x : float) : float :=
  x ⊗ (lit 3.141592653589793 ⊘ lit 180).

(** A truncated series standing for the C library's [cos] in the
    examples; the theorems hold for any function in its place. *)
Definition cos_series (x : float) : float :=
  let x2 := x ⊗ x in
  lit 1 ⊖ x2 ⊘ lit 2 ⊗ (lit 1 ⊖ x2 ⊘ lit 12 ⊗ (lit 1 ⊖ x2 ⊘ lit 30 ⊗
    (lit 1 ⊖ x2 ⊘ lit 56 ⊗ (lit 1 ⊖ x2 ⊘ lit 90)))).

(** A float printed with seven decimals, standing for Python's [str]
    in the examples (Python prints the shortest decimal that reads back
    as the same float). *)
Definition fixed7 (x : float) : string :=
  let scaled :=
    match Prim2SF x with
    | S754_finite _ m e =>
        match e with
        | Zneg p => (Zpos m * 10 ^ 7) / 2 ^ Zpos p
        | _ => Zpos m * 10 ^ 7 * 2 ^ e
        end
    | _ => 0
    end%Z in
  let digits := pretty (scaled `mod` 10 ^ 7)%Z in
  (if PrimFloat.ltb x PrimFloat.zero then "-" else "") +:+
  pretty (scaled / 10 ^ 7)%Z +:+ "." +:+
  String.concat "" (replicate (7 - String.length digits) "0") +:+ digits.

(** The request of the specification's example. *)
Definition vienna : LayerRequest float :=
  {| lat := lit 48.2082; lon := lit 16.3738; size_km := lit 1.0 |}.

Definition vienna_bbox : option (float * float * float * float) :=
  Eval vm_compute in
    get_bbox radians64 cos_series (lat vienna) (lon vienna) (size_km vienna).

(** ** [get_surface_temperature] *)

(** What can be raised inside the [try] of the handler: an
    [ee.EEException], the [HTTPException] of the empty collection, the
    [ZeroDivisionError] of [get_bbox], the [TypeError] of [float(None)],
    and any other exception of an Earth Engine call. *)
Inductive raised :=
  | EEException (msg : string)
  | HTTPRaised (status_code : Z) (detail : string)
  | ZeroDivision
  | FloatOfNone
  | OtherError (msg : string).

(** A member of [features_info['features']]: its [properties], when
    present, map a band to a number or to null ([None]); its geometry
    is a point [[lon, lat]]. *)
Record Sample (F : Type) := {
  sample_properties : option (gmap string (option F));
  sample_lon : F;
  sample_lat : F;
}.
Arguments sample_properties {F} _.
Arguments sample_lon {F} _.
Arguments sample_lat {F} _.

(** The answers of the Earth Engine server to the four [getInfo()]
    calls of the handler, each as a function of what the code sends
    (the rectangle [[west, south, east, north]], and the sampling scale
    for the last): the size of the filtered collection, the date of its
    first image, the region statistics of the calibrated band (a number
    or null per key) and the sampled points (the [features] member may
    be missing).  [inl] is the exception the call raises. *)
Record EarthEngine (F : Type) := {
  collection_size : F * F * F * F → raised + Z;
  first_image_date : F * F * F * F → raised + string;
  reduce_region : F * F * F * F → raised + gmap string (option F);
  sample_region : F * F * F * F → F → raised + option (list (Sample F));
}.
Arguments collection_size {F} _ _.
Arguments first_image_date {F} _ _.
Arguments reduce_region {F} _ _.
Arguments sample_region {F} _ _ _.

(** A member of [temperature_data]. *)
Record TemperatureFeature (F : Type) := {
  tf_type : string;
  tf_geometry : Geometry (num := F);
  tf_temperature : F;
}.
Arguments tf_type {F} _.
Arguments tf_geometry {F} _.
Arguments tf_temperature {F} _.

(** [temp_geojson]. *)
Record TemperatureCollection (F : Type) := {
  tc_type : string;
  tc_features : list (TemperatureFeature F);
}.
Arguments tc_type {F} _.
Arguments tc_features {F} _.

(** [class TemperatureResponse(BaseModel)]. *)
Record TemperatureResponse (F : Type) := {
  temperature_data : TemperatureCollection F;
  min_temp : F;
  max_temp : F;
  mean_temp : F;
  temperature_status : string;
  image_date : string;
}.
Arguments temperature_data {F} _.
Arguments min_temp {F} _.
Arguments max_temp {F} _.
Arguments mean_temp {F} _.
Arguments temperature_status {F} _.
Arguments image_date {F} _.

(** Sequencing of steps that may raise. *)
Definition raise_bind {A B} (m : raised + A) (k : A → raised + B) : raised + B :=
  match m with
  | inl e => inl e
  | inr a => k a
  end.
Notation "'try' x ⇐ m ; k" := (raise_bind m (λ x, k))
  (at level 20, x pattern, m at level 100, k at level 200, only parsing).

Section SurfaceTemperature.
Context {F : Type} `{Arith F}.
Variable radians : F → F.
Variable cos : F → F.
(** Python's [round(x, 2)] and [str(e)] of an exception. *)
Variable round2 : F → F.
Variable str_of : raised → string.
Variable engine : EarthEngine F.

(** [float(stats.get(key, 0.0))]: the default for a missing key, a
    [TypeError] for null. *)
Definition stat_float (stats : gmap string (option F)) (key : string) : raised + F :=
  match stats !! key with
  | None => inr (lit 0.0)
  | Some None => inl FloatOfNone
  | Some (Some v) => inr v
  end.

(** The square polygon around a sampled point. *)
Definition square_feature (half_size lon lat temp_val : F) : TemperatureFeature F := {|
  tf_type := "Feature";
  tf_geometry := {|
    geometry_type := "Polygon";
    coordinates := [[
      (lon ⊖ half_size, lat ⊖ half_size);
      (lon ⊕ half_size, lat ⊖ half_size);
      (lon ⊕ half_size, lat ⊕ half_size);
      (lon ⊖ half_size, lat ⊕ half_size);
      (lon ⊖ half_size, lat ⊖ half_size)
    ]] |};
  tf_temperature := round2 temp_val |}.

(** One turn of the loop over the sampled points. *)
Definition add_sample (half_size : F) (temperature_data : list (TemperatureFeature F))
    (f : Sample F) : list (TemperatureFeature F) :=
  let props := default ∅ (sample_properties f) in
  match mjoin (props !! "ST_B10") with
  | None => temperature_data
  | Some temp_val =>
      temperature_data ++
        [square_feature half_size (sample_lon f) (sample_lat f) temp_val]
  end.

(** The body of the [try]. *)
Definition surface_temperature_body (request : LayerRequest F)
  : raised + TemperatureResponse F :=
  match get_bbox radians cos (lat request) (lon request) (size_km request) with
  | None => inl ZeroDivision
  | Some bbox =>
      let '(south, west, north, east) := bbox in
      let aoi := (west, south, east, north) in
      try size ⇐ collection_size engine aoi;
      if (size =? 0)%Z
      then inl (HTTPRaised 404
        "No cloud-free Landsat 8/9 L2 ST images in the last 6 months for this area.")
      else
        try date ⇐ first_image_date engine aoi;
        try stats ⇐ reduce_region engine aoi;
        try min_t ⇐ stat_float stats "ST_B10_min";
        try max_t ⇐ stat_float stats "ST_B10_max";
        try mean_t ⇐ stat_float stats "ST_B10_mean";
        try features_info ⇐ sample_region engine aoi (sample_scale_m request);
        let temperature_data_list :=
          foldl (add_sample (half_size request)) [] (default [] features_info) in
        inr {|
          temperature_data := {| tc_type := "FeatureCollection";
                                 tc_features := temperature_data_list |};
          min_temp := round2 min_t;
          max_temp := round2 max_t;
          mean_temp := round2 mean_t;
          temperature_status := "success";
          image_date := date |}
  end.

(** The handler of [POST /api/surface-temperature]: the two [except]
    clauses turn whatever the body raised into an [HTTPException]. *)
Definition get_surface_temperature (request : LayerRequest F)
  : exn + TemperatureResponse F :=
  match surface_temperature_body request with
  | inr response => inr response
  | inl (EEException msg) =>
      inl (HTTPException 500 ("Earth Engine error: " +:+ str_of (EEException msg)))
  | inl e =>
      inl (HTTPException 500 ("Error fetching temperature data: " +:+ str_of e))
  end.

(** The square of a sampled point that has a value, [None] for a point
    the loop skips. *)
Definition sample_square (half_size : F) (f : Sample F) : option (TemperatureFeature F) :=
  temp_val ← mjoin (default ∅ (sample_properties f) !! "ST_B10");
  Some (square_feature half_size (sample_lon f) (sample_lat f) temp_val).
End SurfaceTemperature.

(** ** Vocabulary of the further properties *)

(** The seven keys the classification rule looks at. *)
Definition rule_keys : list string :=
  ["building"; "highway"; "railway"; "aeroway"; "amenity"; "landuse"; "leisure"].

(** The detail of the 404 raised for an empty collection. *)
Definition no_imagery_detail : string :=
  "No cloud-free Landsat 8/9 L2 ST images in the last 6 months for this area.".

(** The text of the box in the query: [f"{bbox[0]},{bbox[1]},{bbox[2]},{bbox[3]}"]. *)
Definition bbox_text {F} (fmt : F → string) (bbox : F * F * F * F) : string :=
  let '(b0, b1, b2, b3) := bbox in
  fmt b0 +:+ "," +:+ fmt b1 +:+ "," +:+ fmt b2 +:+ "," +:+ fmt b3.

(** A wood outline, with a tag the rule does not look at. *)
Definition sample_wood : element := {|
  elem_type := "way";
  elem_geometry := Some [sample_node 163600 482100; sample_node 163650 482100;
                         sample_node 163650 482150; sample_node 163600 482150];
  elem_tags := Some {[ "natural" := "wood" ]} |}.

(** ** A sample imagery server *)

(** Rounding to two decimals, half up on the exact value of the float;
    it stands for Python's [round(x, 2)] in the examples. *)
Definition sample_round2 (x : float) : float :=
  match Prim2SF x with
  | S754_finite s m e =>
      let scaled :=
        match e with
        | Zneg p => (Zpos m * 200 + 2 ^ Zpos p) / (2 * 2 ^ Zpos p)
        | _ => Zpos m * 100 * 2 ^ e
        end%Z in
      float_of_Q (Qmake (if s then - scaled else scaled) 100)
  | _ => x
  end.

(** [str(e)], with Starlette's text for an [HTTPException]. *)
Definition sample_str (e : raised) : string :=
  match e with
  | EEException msg => msg
  | HTTPRaised status_code detail => pretty status_code +:+ ": " +:+ detail
  | ZeroDivision => "float division by zero"
  | FloatOfNone => "float() argument must be a string or a real number, not 'NoneType'"
  | OtherError msg => msg
  end.

(** Three sampled points: one with a value, one whose value is null,
    one without properties. *)
Definition sample_points : list (Sample float) := [
  {| sample_properties := Some {[ "ST_B10" := Some (lit 23.456) ]};
     sample_lon := lit 16.37; sample_lat := lit 48.21 |};
  {| sample_properties := Some {[ "ST_B10" := None ]};
     sample_lon := lit 16.371; sample_lat := lit 48.21 |};
  {| sample_properties := None;
     sample_lon := lit 16.372; sample_lat := lit 48.21 |}
].

(** A server with one scene; the mean is missing from its statistics. *)
Definition sample_engine : EarthEngine float := {|
  collection_size := λ _, inr 1%Z;
  first_image_date := λ _, inr "2024-06-01";
  reduce_region := λ _, inr {[ "ST_B10_min" := Some (lit 18.204);
                               "ST_B10_max" := Some (lit 31.5) ]};
  sample_region := λ _ _, inr (Some sample_points) |}.

(** A server whose filtered collection is empty. *)
Definition empty_engine : EarthEngine float := {|
  collection_size := λ _, inr 0%Z;
  first_image_date := λ _, inl (EEException "Image.get: Parameter 'object' is required.");
  reduce_region := λ _, inl (EEException "Image.select: Parameter 'input' is required.");
  sample_region := λ _ _, inl (EEException "Image.sample: Parameter 'image' is required.") |}.

(** The statistic the response reports for a key: the value of the
    server, or [0.0] when the key is missing. *)
Definition stat_or_zero {F} `{Arith F} (stats : gmap string (option F)) (key : string) : F :=
  match stats !! key with
  | Some (Some v) => v
  | _ => lit 0.0
  end.

(** The three keys of the statistics the handler reads. *)
Definition stat_keys : list string := ["ST_B10_min"; "ST_B10_max"; "ST_B10_mean"].

(** A request and a server in exact arithmetic: one sampled point with
    a value, on the equator. *)
Definition equator : LayerRequest R := {| lat := 0%R; lon := 0%R; size_km := 1%R |}.

Definition exact_engine : EarthEngine R := {|
  collection_size := λ _, inr 2%Z;
  first_image_date := λ _, inr "2024-06-01";
  reduce_region := λ _, inr ∅;
  sample_region := λ _ _, inr (Some [
    {| sample_properties := Some {[ "ST_B10" := Some 21.5%R ]};
       sample_lon := 0.001%R; sample_lat := 0.002%R |} ]) |}.

(** A server whose statistics have a null maximum. *)
Definition null_engine : EarthEngine float := {|
  collection_size := λ _, inr 1%Z;
  first_image_date := λ _, inr "2024-06-01";
  reduce_region := λ _, inr {[ "ST_B10_min" := Some (lit 18.204);
                               "ST_B10_max" := None ]};
  sample_region := λ _ _, inr (Some sample_points) |}.

(** The handler run in binary64 on the sample server. *)
Definition vienna_temperature : exn + TemperatureResponse float :=
  Eval vm_compute in
    get_surface_temperature radians64 cos_series sample_round2 sample_str
      sample_engine vienna.

(** The square the handler builds around the point of [exact_engine]. *)
Definition equator_square : TemperatureFeature R :=
  square_feature (H := exact) (λ x, x) (half_size (H := exact) equator)
    0.001%R 0.002%R 21.5%R.

(** ** The statements of the query, as tag filters *)

(** The three forms of filter the query uses: a key is present
    ([[building]], [["highway"]]), a key has a value
    ([["amenity"="parking"]]), the value of a key is one of several
    ([["landuse"~"^(a|b)$"]]).  [HasKey] records whether the source
    writes the key in quotes. *)
Inductive tag_filter :=
  | HasKey (in_quotes : bool) (key : string)
  | KeyEq (key value : string)
  | KeyIn (key : string) (values : list string).

Definition render_filter (f : tag_filter) : string :=
  match f with
  | HasKey false key => "[" +:+ key +:+ "]"
  | HasKey true key => "[" +:+ quoted key +:+ "]"
  | KeyEq key value => "[" +:+ quoted key +:+ "=" +:+ quoted value +:+ "]"
  | KeyIn key values =>
      "[" +:+ quoted key +:+ "~" +:+
      quoted ("^(" +:+ String.concat "|" values +:+ ")$") +:+ "]"
  end.

(** The statements of the query that select sealed categories, and
    those that select unsealed ones, in the order of the source. *)
Definition sealed_filters : list tag_filter := [
  HasKey false "building";
  KeyEq "amenity" "parking";
  KeyIn "landuse" ["industrial"; "commercial"; "retail"; "construction"; "railway"];
  HasKey true "highway";
  HasKey true "railway";
  KeyIn "aeroway" ["runway"; "taxiway"; "apron"; "helipad"];
  KeyIn "leisure" ["pitch"; "track"; "sports_centre"]
].

Definition unsealed_filters : list tag_filter := [
  KeyIn "natural" ["wood"; "grassland"; "scrub"; "wetland"; "beach"; "sand"];
  KeyIn "landuse" ["forest"; "farmland"; "meadow"; "grass"; "orchard"; "vineyard";
                   "allotments"; "cemetery"; "recreation_ground"];
  KeyIn "leisure" ["park"; "garden"; "golf_course"; "nature_reserve"]
].

(** A way with these tags passes the filter (Overpass: the regular
    expression [^(a|b)$] matches exactly the values [a] and [b]). *)
Definition filter_matches (f : tag_filter) (tags : gmap string string) : Prop :=
  match f with
  | HasKey _ key => is_Some (tags !! key)
  | KeyEq key value => tags !! key = Some value
  | KeyIn key values => ∃ v, v ∈ values ∧ tags !! key = Some v
  end.

(** The statement of the query for a filter and the text of a box. *)
Definition way_statement (b : string) (f : tag_filter) : string :=
  "  way" +:+ render_filter f +:+ "(" +:+ b +:+ ");" +:+ nl.

(** * Properties *)

(** ** The classifier *)

(** Case analysis on a boolean, keeping the equation. *)
Ltac bool_cases b H :=
  assert (b = true ∨ b = false) as [H|H] by (destruct b; auto).

Section ClassifierFacts.
Context {num : Type} `{EqDecision num}.
Implicit Types (elem e : element (num := num)) (elems : list (element (num := num))).
Implicit Types (s u : list (Feature (num := num))).

Lemma classify_elem_skip s u e :
  valid_way e = false → classify_elem (s, u) e = (s, u).
Proof.
  unfold valid_way, classify_elem. intros Hv.
  destruct (String.eqb (elem_type e) "way"); [|done].
  destruct (elem_geometry e) as [geom|]; [|done].
  rewrite andb_true_l in Hv. apply Nat.leb_gt in Hv.
  simpl. rewrite length_fmap.
  destruct (Nat.ltb_spec (length geom) 3); [done|lia].
Qed.

Lemma classify_elem_keep s u e :
  valid_way e = true →
  classify_elem (s, u) e =
    if is_sealed (elem_tags_or_empty e)
    then (s ++ [feature_of e], u) else (s, u ++ [feature_of e]).
Proof.
  unfold valid_way, classify_elem, feature_of, elem_coords, elem_tags_or_empty.
  intros Hv. apply andb_true_iff in Hv as [Hway Hgeom].
  rewrite Hway.
  destruct (elem_geometry e) as [geom|]; [|done].
  apply Nat.leb_le in Hgeom.
  simpl. rewrite length_fmap.
  destruct (Nat.ltb_spec (length geom) 3); [lia|done].
Qed.

Lemma foldl_classify_elem elems : ∀ s u,
  foldl classify_elem (s, u) elems =
    (s ++ (feature_of <$> filter sealed_way elems),
     u ++ (feature_of <$> filter unsealed_way elems)).
Proof.
  induction elems as [|e elems IH]; intros s u; cbn [foldl].
  - by rewrite !app_nil_r.
  - bool_cases (valid_way e) Hv.
    + rewrite classify_elem_keep by exact Hv.
      bool_cases (is_sealed (elem_tags_or_empty e)) Hs.
      * rewrite Hs, IH.
        rewrite filter_cons_True by (unfold sealed_way; rewrite Hv, Hs; exact I).
        rewrite filter_cons_False
          by (unfold unsealed_way; rewrite Hv, Hs; exact (λ x, x)).
        rewrite fmap_cons, <- app_assoc. reflexivity.
      * rewrite Hs, IH.
        rewrite filter_cons_False
          by (unfold sealed_way; rewrite Hv, Hs; exact (λ x, x)).
        rewrite filter_cons_True by (unfold unsealed_way; rewrite Hv, Hs; exact I).
        rewrite fmap_cons, <- app_assoc. reflexivity.
    + rewrite classify_elem_skip by exact Hv. rewrite IH.
      rewrite filter_cons_False by (unfold sealed_way; rewrite Hv; exact (λ x, x)).
      rewrite filter_cons_False by (unfold unsealed_way; rewrite Hv; exact (λ x, x)).
      reflexivity.
Qed.

Lemma classify_and_convert_elements elems other :
  classify_and_convert {| osm_elements := Some elems; osm_other := other |} =
    ({| collection_type := "FeatureCollection";
        features := feature_of <$> filter sealed_way elems |},
     {| collection_type := "FeatureCollection";
        features := feature_of <$> filter unsealed_way elems |}).
Proof.
  unfold classify_and_convert, osm_falsy. cbn [osm_elements osm_other].
  rewrite bool_decide_eq_false_2 by (intros [? _]; discriminate).
  rewrite bool_decide_eq_true_2 by eauto.
  cbn [orb negb default from_option id].
  rewrite foldl_classify_elem. reflexivity.
Qed.

Lemma get_in_spec tags key values :
  get_in tags key values = true ↔ ∃ v, tags !! key = Some v ∧ v ∈ values.
Proof.
  unfold get_in. destruct (tags !! key) as [v|].
  - rewrite bool_decide_eq_true. split; [eauto|]. by intros (? & [= <-] & ?).
  - split; [discriminate|]. by intros (? & [=] & _).
Qed.

Lemma is_sealed_spec tags : is_sealed tags = true ↔ spec_sealed tags.
Proof.
  unfold is_sealed, spec_sealed.
  rewrite !orb_true_iff, bool_decide_eq_true, !get_in_spec.
  unfold set_Exists, sealed_tags, sealed_landuse, sealed_leisure.
  repeat setoid_rewrite elem_of_union.
  repeat setoid_rewrite elem_of_singleton.
  repeat setoid_rewrite elem_of_cons.
  repeat setoid_rewrite elem_of_nil.
  split.
  - intros [[(k & Hk & Hs)|(v & Hv & Hin)]|(v & Hv & Hin)].
    + left. exists k. split; [tauto|exact Hs].
    + right; left. exists v. split; [exact Hv|tauto].
    + right; right. exists v. split; [exact Hv|tauto].
  - intros [(k & Hk & Hs)|[(v & Hv & Hin)|(v & Hv & Hin)]].
    + left; left. exists k. split; [tauto|exact Hs].
    + left; right. exists v. split; [exact Hv|tauto].
    + right. exists v. split; [exact Hv|tauto].
Qed.

Lemma sealed_way_iff e :
  sealed_way e ↔ valid_way e = true ∧ is_sealed (elem_tags_or_empty e) = true.
Proof. unfold sealed_way. rewrite andb_True, !Is_true_true. tauto. Qed.

Lemma unsealed_way_iff e :
  unsealed_way e ↔ valid_way e = true ∧ is_sealed (elem_tags_or_empty e) = false.
Proof.
  unfold unsealed_way. rewrite andb_True, negb_True, Is_true_true, Is_true_false.
  tauto.
Qed.

Lemma feature_of_tags e e' :
  feature_of e = feature_of e' → elem_tags_or_empty e = elem_tags_or_empty e'.
Proof. intros Heq. exact (f_equal properties Heq). Qed.

(** A feature is in at most one of the two lists. *)
Lemma sealed_unsealed_disjoint elems f :
  f ∈ feature_of <$> filter sealed_way elems →
  f ∈ feature_of <$> filter unsealed_way elems → False.
Proof.
  intros (e1 & -> & H1)%list_elem_of_fmap (e2 & Heq & H2)%list_elem_of_fmap.
  apply list_elem_of_filter in H1 as [[_ H1]%sealed_way_iff _].
  apply list_elem_of_filter in H2 as [[_ H2]%unsealed_way_iff _].
  apply feature_of_tags in Heq. congruence.
Qed.

(** ** C2 *)

(** C2: on a response with an [elements] list, the sealed collection
    holds the features of the valid ways whose tags are sealed, the
    unsealed collection those of the other valid ways, both in source
    order; the label is [is_sealed] of the tags alone; and the feature
    of every valid way is in exactly one of the two collections. *)
Theorem classify_and_convert_partition elems other :
  let out := classify_and_convert {| osm_elements := Some elems; osm_other := other |} in
  features (out.1) = feature_of <$> filter sealed_way elems ∧
  features (out.2) = feature_of <$> filter unsealed_way elems ∧
  (∀ e, e ∈ elems → valid_way e = true →
     (is_sealed (elem_tags_or_empty e) = true ∧
      (feature_of e ∈ features (out.1)) ∧ (feature_of e ∉ features (out.2))) ∨
     (is_sealed (elem_tags_or_empty e) = false ∧
      (feature_of e ∉ features (out.1)) ∧ (feature_of e ∈ features (out.2)))).
Proof.
  intros out. subst out. rewrite classify_and_convert_elements.
  cbn [fst snd features].
  split; [reflexivity|]. split; [reflexivity|].
  intros e Hin Hv.
  bool_cases (is_sealed (elem_tags_or_empty e)) Hs.
  - left. split; [exact Hs|].
    assert (feature_of e ∈ feature_of <$> filter sealed_way elems) as Hf.
    { apply list_elem_of_fmap. exists e. split; [reflexivity|].
      apply list_elem_of_filter. split; [|exact Hin].
      apply sealed_way_iff. auto. }
    split; [exact Hf|]. intros Hu. exact (sealed_unsealed_disjoint _ _ Hf Hu).
  - right. split; [exact Hs|].
    assert (feature_of e ∈ feature_of <$> filter unsealed_way elems) as Hf.
    { apply list_elem_of_fmap. exists e. split; [reflexivity|].
      apply list_elem_of_filter. split; [|exact Hin].
      apply unsealed_way_iff. auto. }
    split; [|exact Hf]. intros Hu. exact (sealed_unsealed_disjoint _ _ Hu Hf).
Qed.

(** ** C3 *)

Lemma close_polygon_cases (coords : list (coord (num := num))) c0 :
  head coords = Some c0 →
  (last coords = Some c0 ∧ close_polygon coords = coords) ∨
  (last coords ≠ Some c0 ∧ close_polygon coords = coords ++ [c0]).
Proof.
  intros Hhd. unfold close_polygon. rewrite Hhd.
  destruct (last coords) as [cn|] eqn:Hlast.
  - destruct (decide (c0 = cn)) as [->|Hne].
    + left. rewrite bool_decide_eq_false_2 by (intros Hc; exact (Hc eq_refl)).
      split; reflexivity.
    + right. rewrite bool_decide_eq_true_2 by exact Hne.
      split; [congruence|reflexivity].
  - apply last_None in Hlast. subst coords. discriminate.
Qed.

Lemma close_polygon_closed (coords : list (coord (num := num))) c0 :
  head coords = Some c0 → closed_ring (close_polygon coords).
Proof.
  intros Hhd. exists c0.
  destruct (close_polygon_cases coords c0 Hhd) as [[Hl ->]|[_ ->]].
  - split; [exact Hhd|exact Hl].
  - split; [|apply last_snoc].
    destruct coords; [discriminate|exact Hhd].
Qed.

Lemma valid_way_head e :
  valid_way e = true → ∃ c0, head (elem_coords e) = Some c0.
Proof.
  unfold valid_way, elem_coords. intros [_ Hg]%andb_true_iff.
  destruct (elem_geometry e) as [[|nd geom]|]; [discriminate| |discriminate].
  eexists. reflexivity.
Qed.

(** C3: every feature of either collection is the feature of a valid
    way of the input; its polygon has one ring, and that ring is
    closed.  The ring is the way's coordinate list itself when that
    list already ends with its first pair, and the list with its first
    pair appended once otherwise. *)
Theorem classify_and_convert_closed_rings elems other f :
  let out := classify_and_convert {| osm_elements := Some elems; osm_other := other |} in
  f ∈ features (out.1) ++ features (out.2) →
  ∃ e c0 ring,
    e ∈ elems ∧ valid_way e = true ∧ f = feature_of e ∧
    coordinates (geometry f) = [ring] ∧ closed_ring ring ∧
    head (elem_coords e) = Some c0 ∧
    (last (elem_coords e) = Some c0 → ring = elem_coords e) ∧
    (last (elem_coords e) ≠ Some c0 → ring = elem_coords e ++ [c0]).
Proof.
  intros out. subst out. rewrite classify_and_convert_elements.
  cbn [fst snd features]. rewrite <- fmap_app.
  intros (e & -> & Hin)%list_elem_of_fmap.
  assert (e ∈ elems ∧ valid_way e = true) as [He Hv].
  { apply elem_of_app in Hin as [Hin|Hin];
      apply list_elem_of_filter in Hin as [Hp He]; split; try exact He.
    - apply sealed_way_iff in Hp. tauto.
    - apply unsealed_way_iff in Hp. tauto. }
  destruct (valid_way_head e Hv) as [c0 Hhd].
  exists e, c0, (close_polygon (elem_coords e)).
  split; [exact He|]. split; [exact Hv|]. split; [reflexivity|].
  split; [reflexivity|]. split; [exact (close_polygon_closed _ _ Hhd)|].
  split; [exact Hhd|].
  destruct (close_polygon_cases _ _ Hhd) as [[Hl ->]|[Hl ->]].
  - split; [reflexivity|]. intros Hc. destruct (Hc Hl).
  - split; [|reflexivity]. intros Hc. destruct (Hl Hc).
Qed.

(** ** C4 *)

Lemma feature_in_sealed elems e :
  e ∈ elems → valid_way e = true →
  feature_of e ∈ feature_of <$> filter sealed_way elems ↔
  is_sealed (elem_tags_or_empty e) = true.
Proof.
  intros Hin Hv. split.
  - intros (e' & Heq & H')%list_elem_of_fmap.
    apply list_elem_of_filter in H' as [[_ Hs]%sealed_way_iff _].
    apply feature_of_tags in Heq. congruence.
  - intros Hs. apply list_elem_of_fmap. exists e. split; [reflexivity|].
    apply list_elem_of_filter. split; [|exact Hin].
    apply sealed_way_iff. auto.
Qed.

Lemma feature_in_unsealed elems e :
  e ∈ elems → valid_way e = true →
  feature_of e ∈ feature_of <$> filter unsealed_way elems ↔
  is_sealed (elem_tags_or_empty e) = false.
Proof.
  intros Hin Hv. split.
  - intros (e' & Heq & H')%list_elem_of_fmap.
    apply list_elem_of_filter in H' as [[_ Hs]%unsealed_way_iff _].
    apply feature_of_tags in Heq. congruence.
  - intros Hs. apply list_elem_of_fmap. exists e. split; [reflexivity|].
    apply list_elem_of_filter. split; [|exact Hin].
    apply unsealed_way_iff. auto.
Qed.

(** C4: the feature of a valid way is in the sealed collection exactly
    when its tags satisfy the rule of the specification, and in the
    unsealed collection exactly when they do not; an [amenity] key,
    whatever its value, puts it in the sealed collection. *)
Theorem classify_and_convert_rule elems other e :
  let out := classify_and_convert {| osm_elements := Some elems; osm_other := other |} in
  e ∈ elems → valid_way e = true →
  (feature_of e ∈ features (out.1) ↔ spec_sealed (elem_tags_or_empty e)) ∧
  (feature_of e ∈ features (out.2) ↔ ¬ spec_sealed (elem_tags_or_empty e)) ∧
  (∀ v, elem_tags_or_empty e !! "amenity" = Some v →
        feature_of e ∈ features (out.1)).
Proof.
  intros out Hin Hv. subst out. rewrite classify_and_convert_elements.
  cbn [fst snd features].
  rewrite (feature_in_sealed _ _ Hin Hv), (feature_in_unsealed _ _ Hin Hv).
  rewrite <- is_sealed_spec.
  split; [reflexivity|]. split.
  - destruct (is_sealed (elem_tags_or_empty e)); split; congruence.
  - intros v Hv'. apply (feature_in_sealed _ _ Hin Hv), is_sealed_spec.
    left. exists "amenity". split.
    + repeat (apply list_elem_of_here || apply list_elem_of_further).
    + rewrite Hv'. eauto.
Qed.

(** ** C5 *)

Lemma dropped_not_valid e :
  elem_type e ≠ "way" ∨ elem_geometry e = None ∨ length (elem_coords e) < 3 →
  valid_way e = false.
Proof.
  unfold valid_way, elem_coords. intros [Hty|[Hg|Hlen]].
  - apply String.eqb_neq in Hty. rewrite Hty. reflexivity.
  - rewrite Hg. apply andb_false_r.
  - destruct (elem_geometry e) as [geom|]; [|apply andb_false_r].
    cbn [default from_option id] in Hlen. rewrite length_fmap in Hlen.
    apply andb_false_iff. right. apply Nat.leb_gt. exact Hlen.
Qed.

(** C5: an element that is not a way, or has no geometry, or has
    fewer than three coordinate pairs contributes nothing: the two
    collections are those of the input without it. *)
Theorem classify_and_convert_drops pre e post other :
  elem_type e ≠ "way" ∨ elem_geometry e = None ∨ length (elem_coords e) < 3 →
  classify_and_convert {| osm_elements := Some (pre ++ e :: post); osm_other := other |}
  = classify_and_convert {| osm_elements := Some (pre ++ post); osm_other := other |}.
Proof.
  intros Hdrop%dropped_not_valid.
  rewrite !classify_and_convert_elements, !filter_app.
  rewrite !filter_cons_False; [reflexivity| |].
  - intros [Hv _]%unsealed_way_iff. congruence.
  - intros [Hv _]%sealed_way_iff. congruence.
Qed.

(** ** C10 *)

Lemma classify_and_convert_None other :
  classify_and_convert (num := num) {| osm_elements := None; osm_other := other |} =
    ({| collection_type := "FeatureCollection"; features := [] |},
     {| collection_type := "FeatureCollection"; features := [] |}).
Proof.
  unfold classify_and_convert. cbn [osm_elements].
  rewrite (bool_decide_eq_false_2 (is_Some None)) by (intros [? [=]]).
  rewrite orb_true_r. reflexivity.
Qed.

(** C10: without an [elements] member, and for the empty dict in
    particular, the function returns, and both results are the empty
    collection. *)
Theorem classify_and_convert_no_elements :
  (∀ other,
     classify_and_convert (num := num) {| osm_elements := None; osm_other := other |} =
       ({| collection_type := "FeatureCollection"; features := [] |},
        {| collection_type := "FeatureCollection"; features := [] |})) ∧
  (∀ osm_data : OsmData (num := num),
     osm_falsy osm_data = true →
     classify_and_convert osm_data =
       ({| collection_type := "FeatureCollection"; features := [] |},
        {| collection_type := "FeatureCollection"; features := [] |})).
Proof.
  split; [exact classify_and_convert_None|].
  intros [elems other] [Hnone _]%bool_decide_eq_true.
  cbn [osm_elements] in Hnone. subst elems. apply classify_and_convert_None.
Qed.
End ClassifierFacts.

(** Running the classifier on the sample response. *)
Example classify_sample :
  classify_and_convert sample_osm =
    ({| collection_type := "FeatureCollection";
        features := [feature_of sample_building; feature_of sample_cafe] |},
     {| collection_type := "FeatureCollection";
        features := [feature_of sample_park] |}).
Proof. vm_compute. reflexivity. Qed.

Example feature_of_sample_park :
  coordinates (geometry (feature_of sample_park)) =
    [[(163700, 482000); (163720, 482000); (163720, 482020); (163700, 482000)]]%Z.
Proof. vm_compute. reflexivity. Qed.

Lemma classify_and_convert_closed_rings_witness :
  ∃ e c0 ring,
    e ∈ sample_elements ∧ valid_way e = true ∧ feature_of sample_park = feature_of e ∧
    coordinates (geometry (feature_of sample_park)) = [ring] ∧ closed_ring ring ∧
    head (elem_coords e) = Some c0 ∧
    (last (elem_coords e) = Some c0 → ring = elem_coords e) ∧
    (last (elem_coords e) ≠ Some c0 → ring = elem_coords e ++ [c0]).
Proof.
  apply (classify_and_convert_closed_rings sample_elements
           {[ "generator" := "Overpass API" ]} (feature_of sample_park)).
  apply list_elem_of_lookup. exists 2%nat. vm_compute. reflexivity.
Defined.

Lemma classify_and_convert_rule_witness :
  (feature_of sample_cafe ∈ features ((classify_and_convert sample_osm).1) ↔
     spec_sealed (elem_tags_or_empty sample_cafe)) ∧
  (feature_of sample_cafe ∈ features ((classify_and_convert sample_osm).2) ↔
     ¬ spec_sealed (elem_tags_or_empty sample_cafe)) ∧
  (∀ v, elem_tags_or_empty sample_cafe !! "amenity" = Some v →
        feature_of sample_cafe ∈ features ((classify_and_convert sample_osm).1)).
Proof.
  apply (classify_and_convert_rule sample_elements
           {[ "generator" := "Overpass API" ]} sample_cafe).
  - apply list_elem_of_lookup. exists 4%nat. reflexivity.
  - vm_compute. reflexivity.
Defined.

Lemma classify_and_convert_drops_witness :
  classify_and_convert
    {| osm_elements := Some ([sample_building; sample_point; sample_park] ++
                             sample_stub :: [sample_cafe]);
       osm_other := ∅ |}
  = classify_and_convert
    {| osm_elements := Some ([sample_building; sample_point; sample_park] ++ [sample_cafe]);
       osm_other := ∅ |}.
Proof.
  apply (classify_and_convert_drops [sample_building; sample_point; sample_park]
           sample_stub [sample_cafe] ∅).
  right; right. vm_compute. lia.
Defined.

(** ** The endpoint fallback *)

Section OverpassFacts.
Context {Dict World : Type}.
Variable post : string → string → World → World * option (Response Dict).




End OverpassFacts.

(** The sample network: two failures, then the third endpoint's
    response; the log shows the three calls in list order. *)
Example fetch_sample :
  fetch_overpass_data (logged_post sample_answer) "query" [] =
    (OVERPASS_URLS, inr sample_osm).
Proof. vm_compute. reflexivity. Qed.

Example fetch_all_down :
  fetch_overpass_data (Dict := OsmData (num := Z)) (logged_post (λ _, None)) "query" [] =
    (OVERPASS_URLS, inl unavailable).
Proof. vm_compute. reflexivity. Qed.

(** ** The temperature calibration and the sampling grid *)

Lemma Q2R_lit (n : Z) (d : positive) : Q2R (n # d) = (IZR n / IZR (Zpos d))%R.
Proof. reflexivity. Qed.

Section CalibrationFacts.
Context {F : Type} `{Arith F} {pixel : Type}.

Lemma value_pointwise (f : F → F) (image : gmap string (pixel → F)) band p :
  ee.value ((λ raster q, f (raster q)) <$> image) band p =
  f <$> ee.value image band p.
Proof.
  unfold ee.value. rewrite lookup_fmap.
  destruct (image !! band); reflexivity.
Qed.

Lemma value_select (image : gmap string (pixel → F)) band p :
  ee.value (ee.select image band) band p = ee.value image band p.
Proof.
  unfold ee.value, ee.select.
  destruct (image !! band) as [raster|] eqn:Hb.
  - erewrite map_lookup_filter_Some_2; [reflexivity|exact Hb|reflexivity].
  - rewrite map_lookup_filter_None_2; [reflexivity|]. left. exact Hb.
Qed.

(** The composed image computes the calibration on every pixel. *)
Lemma st_c_value (image : gmap string (pixel → F)) p :
  ee.value (st_c image) "ST_B10" p =
  celsius_of_raw <$> ee.value image "ST_B10" p.
Proof.
  unfold st_c, st_k, ee.subtract, ee.add, ee.multiply, celsius_of_raw.
  rewrite (value_pointwise (λ x, x ⊖ lit 273.15)).
  rewrite (value_pointwise (λ x, x ⊕ lit 149.0)).
  rewrite (value_pointwise (λ x, x ⊗ lit 0.00341802)).
  rewrite value_select.
  destruct (ee.value image "ST_B10" p); reflexivity.
Qed.
End CalibrationFacts.

Lemma exact_lit (q : Q) : lit (Arith := exact) q = Q2R q.
Proof. reflexivity. Qed.

(** C7: on every pixel the image composed by the handler has the value
    [(raw × 0.00341802 + 149.0) − 273.15] of the raw band value,
    whatever the arithmetic of the server; as a formula on numbers this
    is [raw × 0.00341802 + 149.0 − 273.15], and a raw value of [0] maps
    to exactly [−124.15]. *)
Theorem st_c_calibration :
  (∀ (F : Type) (A : Arith F) (pixel : Type)
     (image : gmap string (pixel → F)) (p : pixel),
      ee.value (st_c image) "ST_B10" p =
      celsius_of_raw <$> ee.value image "ST_B10" p) ∧
  (∀ raw : R,
      celsius_of_raw (H := exact) raw = (raw * 0.00341802 + 149.0 - 273.15)%R) ∧
  celsius_of_raw (H := exact) 0%R = (-124.15)%R.
Proof.
  split; [intros F A pixel image p; apply st_c_value|]. split.
  - intros raw. unfold celsius_of_raw. cbn [add sub mul exact rounded].
    rewrite !exact_lit, !Q2R_lit. lra.
  - unfold celsius_of_raw. cbn [add sub mul exact rounded].
    rewrite !exact_lit, !Q2R_lit. lra.
Qed.

(** The same wiring on a sample image: a pixel whose raw value is [0]
    and one whose raw value is [44177], in exact arithmetic. *)
Example st_c_sample :
  ∃ v0 v1,
    ee.value (st_c (H := exact) {[ "ST_B10" := λ p : bool, if p then 0%R else 44177%R;
                                   "QA_PIXEL" := λ _, 21824%R ]}) "ST_B10" true = Some v0 ∧
    ee.value (st_c (H := exact) {[ "ST_B10" := λ p : bool, if p then 0%R else 44177%R;
                                   "QA_PIXEL" := λ _, 21824%R ]}) "ST_B10" false = Some v1 ∧
    v0 = (-124.15)%R ∧ v1 = (44177 * 0.00341802 + 149.0 - 273.15)%R.
Proof.
  eexists _, _. rewrite !st_c_value. split; [reflexivity|]. split; [reflexivity|].
  unfold celsius_of_raw. cbn [add sub mul exact rounded].
  rewrite !exact_lit, !Q2R_lit. split; lra.
Qed.


(** ** The bounding box *)

(** In binary64 the box is not exactly symmetric around the centre: at
    latitude and longitude 64 with a 1 km square, whatever [math.radians]
    and [math.cos] return, [north - lat] is 0.0045045045045100096 and
    [lat - south] is 0.0045045045045029042. *)
Lemma get_bbox_binary64_asymmetric :
  LayerRequest_valid (H := binary64)
    {| lat := lit 64; lon := lit 64; size_km := lit 1.0 |} = true ∧
  ¬ ∃ radians cos south west north east,
      get_bbox (H := binary64) radians cos (lit 64) (lit 64) (lit 1.0)
        = Some (south, west, north, east) ∧
      (north ⊖ lit 64 ≐ lit 64 ⊖ south) = true.
Proof.
  split; [vm_compute; reflexivity|].
  intros (radians & cos & south & west & north & east & Hbox & Hsym).
  unfold get_bbox in Hbox.
  destruct (_ ⨸ _) as [lon_offset|]; [|discriminate].
  cbn [mbind option_bind] in Hbox. injection Hbox as <- _ <- _.
  vm_compute in Hsym. discriminate.
Qed.

(** The code run in binary64 on the specification's example (with the
    sample cosine): the box is ordered, and here the rounding errors
    happen to cancel. *)
Example get_bbox_binary64_vienna :
  ∃ south west north east,
    vienna_bbox = Some (south, west, north, east) ∧
    (south ≺ north) = true ∧ (west ≺ east) = true ∧
    (north ⊖ lat vienna ≐ lat vienna ⊖ south) = true.
Proof. eexists _, _, _, _. split; [reflexivity|]. vm_compute. auto. Qed.

Lemma Rabs_bound (a b : R) : (Rabs a <= b → - b <= a <= b)%R.
Proof. unfold Rabs. destruct (Rcase_abs a); lra. Qed.

Section RoundedBox.
(** A rounding of relative error at most [u], with [u] at most
    [2^-53]: binary64 with rounding to nearest, away from overflow
    and underflow; the identity with [u = 0]. *)
Variable rnd : R → R.
Variable u : R.
Hypothesis u_range : (0 <= u <= / 9007199254740992)%R.
Hypothesis rnd_error : ∀ x : R, (Rabs (rnd x - x) <= u * Rabs x)%R.
Variable radians : R → R.
Variable cos : R → R.

Local Open Scope R_scope.

Lemma rnd_near x B : Rabs x <= B → x - B / 10^15 <= rnd x <= x + B / 10^15.
Proof.
  intros HB. pose proof (rnd_error x) as He.
  pose proof (Rabs_pos x) as Hx.
  assert (u * Rabs x <= B / 10^15) as Hk.
  { apply Rle_trans with (/ 9007199254740992 * B).
    - apply Rmult_le_compat; lra.
    - simpl. lra. }
  apply Rabs_bound in He. simpl in *. lra.
Qed.

Lemma rnd_between x lo hi :
  0 <= lo → lo <= x <= hi →
  lo - hi / 10^15 <= rnd x <= hi + hi / 10^15.
Proof.
  intros Hlo Hx.
  assert (Rabs x <= hi) as HB by (apply Rabs_le; lra).
  pose proof (rnd_near x hi HB). lra.
Qed.

Lemma rnd_pos x : 0 < x → 0 < rnd x.
Proof.
  intros Hx. pose proof (rnd_near x x) as Hn.
  rewrite Rabs_pos_eq in Hn by lra. specialize (Hn (Rle_refl _)).
  simpl in Hn. lra.
Qed.

Lemma rnd_zero : rnd 0 = 0.
Proof.
  pose proof (rnd_near 0 0) as Hn. rewrite Rabs_R0 in Hn.
  specialize (Hn (Rle_refl _)). simpl in Hn. lra.
Qed.

(** The error of a rounding against the rounded value. *)
Lemma rnd_error_out x : Rabs (rnd x - x) <= 2 * u * Rabs (rnd x).
Proof.
  pose proof (rnd_error x) as He. pose proof (Rabs_pos x) as Hx.
  assert (Rabs x <= Rabs (rnd x) + Rabs (rnd x - x)) as Htri.
  { pose proof (Rabs_triang_inv x (rnd x)) as Ht.
    rewrite (Rabs_minus_sym x (rnd x)) in Ht. lra. }
  assert (u * Rabs x <= Rabs x / 2) as Hhalf.
  { apply Rle_trans with (/ 2 * Rabs x); [|lra].
    apply Rmult_le_compat_r; lra. }
  assert (Rabs x <= 2 * Rabs (rnd x)) as H2 by lra.
  apply Rle_trans with (u * Rabs x); [exact He|].
  replace (2 * u * Rabs (rnd x)) with (u * (2 * Rabs (rnd x))) by ring.
  apply Rmult_le_compat_l; lra.
Qed.

Lemma rnd_rel x : 0 < x → x - x / 10^15 <= rnd x <= x + x / 10^15.
Proof.
  intros Hx. apply rnd_near. rewrite Rabs_pos_eq by lra. apply Rle_refl.
Qed.

Lemma div_between x y a b c d :
  0 <= a <= x → x <= b → 0 < c <= y → y <= d →
  a / d <= x / y <= b / c.
Proof.
  intros Ha Hb Hc Hd.
  assert (0 < y) as Hy by lra. assert (0 < d) as Hd' by lra.
  assert (/ d <= / y) as Hi1 by (apply Rinv_le_contravar; lra).
  assert (/ y <= / c) as Hi2 by (apply Rinv_le_contravar; lra).
  assert (0 < / d) as Hid by (apply Rinv_0_lt_compat; lra).
  assert (0 < / y) as Hiy by (apply Rinv_0_lt_compat; lra).
  unfold Rdiv. split.
  - apply Rmult_le_compat; lra.
  - apply Rmult_le_compat; lra.
Qed.

(** The two sides of a pair [rnd (c - off)], [rnd (c + off)] differ
    from [c] by the same amount up to the two rounding errors. *)
Lemma rnd_symmetric c off :
  Rabs ((rnd (c + off) - c) - (c - rnd (c - off))) <=
  2 * u * (Rabs (rnd (c - off)) + Rabs (rnd (c + off))).
Proof.
  pose proof (rnd_error_out (c + off)) as Hn.
  pose proof (rnd_error_out (c - off)) as Hs.
  replace ((rnd (c + off) - c) - (c - rnd (c - off)))
    with ((rnd (c + off) - (c + off)) + (rnd (c - off) - (c - off))) by ring.
  eapply Rle_trans; [apply Rabs_triang|]. lra.
Qed.

(** C1 (amended): for a valid request and a positive cosine, the box
    is returned, [south < north] and [west < east], and the box is
    symmetric around the centre up to the rounding of its four
    corners; without rounding ([u = 0]) it is exactly symmetric. *)
Theorem get_bbox_ordered_symmetric (center_lat center_lon square_size_km : R) :
  -90 <= center_lat <= 90 →
  -180 <= center_lon <= 180 →
  1/2 <= square_size_km <= 10 →
  0 < cos (radians center_lat) <= 1 →
  ∃ south west north east,
    get_bbox (H := rounded rnd) radians cos center_lat center_lon square_size_km
      = Some (south, west, north, east) ∧
    south < north ∧ west < east ∧
    Rabs ((north - center_lat) - (center_lat - south))
      <= 2 * u * (Rabs south + Rabs north) ∧
    Rabs ((east - center_lon) - (center_lon - west))
      <= 2 * u * (Rabs west + Rabs east).
Proof.
  intros Hlat Hlon Hsize Hcos.
  unfold get_bbox, truediv.
  cbn [lit add sub mul quot eqb rounded].
  rewrite !Q2R_lit.
  replace (0 / 1) with 0 by lra. rewrite rnd_zero.
  replace (2 / 1) with 2 by lra. replace (1110 / 10) with 111 by lra.
  set (two := rnd 2). set (c111 := rnd 111).
  set (half := rnd (square_size_km / two)).
  set (lat_offset := rnd (half / c111)).
  set (den := rnd (c111 * cos (radians center_lat))).
  assert (19/10 <= two <= 21/10) as Htwo.
  { pose proof (rnd_between 2 2 2) as Hb. simpl in Hb. subst two. lra. }
  assert (110 <= c111 <= 112) as H111.
  { pose proof (rnd_between 111 111 111) as Hb. simpl in Hb. subst c111. lra. }
  assert (1/10 <= half <= 6) as Hhalf.
  { pose proof (div_between square_size_km two (1/2) 10 (19/10) (21/10)) as Hd.
    pose proof (rnd_between (square_size_km / two) (1/2 / (21/10)) (10 / (19/10))) as Hb.
    simpl in Hb. subst half. lra. }
  assert (1/2000 <= lat_offset <= 1/10) as Hoff.
  { pose proof (div_between half c111 (1/10) 6 110 112) as Hd.
    pose proof (rnd_between (half / c111) (1/10 / 112) (6 / 110)) as Hb.
    simpl in Hb. subst lat_offset. lra. }
  assert (0 < den <= 113) as Hden.
  { assert (0 < c111 * cos (radians center_lat) <= 112) as Hp.
    { split; [apply Rmult_lt_0_compat; lra|].
      replace 112 with (112 * 1) by ring. apply Rmult_le_compat; lra. }
    split; [apply rnd_pos; lra|].
    pose proof (rnd_between _ 0 112 (Rle_refl 0) (conj (Rlt_le _ _ (proj1 Hp)) (proj2 Hp))) as Hb.
    simpl in Hb. subst den. lra. }
  unfold Reqb. destruct (Req_dec_T den 0) as [Hz|_]; [lra|].
  cbn [mbind option_bind].
  set (lon_offset := rnd (half / den)).
  assert (1/2000 <= lon_offset) as Hlo.
  { pose proof (div_between half den (1/10) 6 den 113) as Hd.
    assert (0 < half / den) as Hq.
    { apply Rdiv_lt_0_compat; lra. }
    pose proof (rnd_rel _ Hq) as Hb. simpl in Hb. subst lon_offset. lra. }
  eexists _, _, _, _. split; [reflexivity|].
  split; [|split; [|split]].
  - pose proof (rnd_near (center_lat - lat_offset) 91) as Hs.
    pose proof (rnd_near (center_lat + lat_offset) 91) as Hn.
    simpl in Hs, Hn.
    assert (Rabs (center_lat - lat_offset) <= 91) by (apply Rabs_le; lra).
    assert (Rabs (center_lat + lat_offset) <= 91) by (apply Rabs_le; lra).
    lra.
  - pose proof (rnd_near (center_lon - lon_offset) (180 + lon_offset)) as Hw.
    pose proof (rnd_near (center_lon + lon_offset) (180 + lon_offset)) as He.
    simpl in Hw, He.
    assert (Rabs (center_lon - lon_offset) <= 180 + lon_offset) by (apply Rabs_le; lra).
    assert (Rabs (center_lon + lon_offset) <= 180 + lon_offset) by (apply Rabs_le; lra).
    lra.
  - apply rnd_symmetric.
  - apply rnd_symmetric.
Qed.
End RoundedBox.

(** In exact arithmetic, at the request of the specification's example
    (Vienna, 1 km): the box is ordered and exactly symmetric. *)
Lemma get_bbox_ordered_symmetric_witness :
  ∃ south west north east : R,
    get_bbox (H := exact) Rradians Rtrigo_def.cos 48.2082%R 16.3738%R 1%R
      = Some (south, west, north, east) ∧
    (south < north)%R ∧ (west < east)%R ∧
    (north - 48.2082 = 48.2082 - south)%R ∧
    (east - 16.3738 = 16.3738 - west)%R.
Proof.
  assert (0 <= 0 <= / 9007199254740992)%R as Hu by lra.
  assert (∀ x : R, Rabs (x - x) <= 0 * Rabs x)%R as Hrnd.
  { intros x. rewrite Rminus_diag, Rabs_R0. lra. }
  assert (0 < Rtrigo_def.cos (Rradians 48.2082%R) <= 1)%R as Hcos.
  { pose proof PI_RGT_0 as Hpi. unfold Rradians. split.
    - apply cos_gt_0; lra.
    - apply COS_bound. }
  destruct (get_bbox_ordered_symmetric (λ x, x) 0 Hu Hrnd Rradians Rtrigo_def.cos
              48.2082%R 16.3738%R 1%R ltac:(lra) ltac:(lra) ltac:(lra) Hcos)
    as (south & west & north & east & Hbox & Hsn & Hwe & Hlat & Hlon).
  exists south, west, north, east.
  split; [exact Hbox|]. split; [exact Hsn|]. split; [exact Hwe|].
  apply Rabs_bound in Hlat, Hlon. split; lra.
Defined.

(** In exact arithmetic the cosine is zero at the poles and the last
    division raises [ZeroDivisionError], as the specification notes.
    (In binary64 [math.radians(90.0)] is below [π/2] and the cosine
    computed there is about [6.1e-17], not zero.) *)
Example get_bbox_exact_pole :
  get_bbox (H := exact) Rradians Rtrigo_def.cos 90%R 0%R 1%R = None.
Proof.
  unfold get_bbox, truediv. cbn [lit mul eqb exact rounded].
  replace (Rradians 90%R) with (PI / 2)%R by (unfold Rradians; lra).
  rewrite cos_PI2, !Q2R_lit.
  unfold Reqb. destruct (Req_dec_T _ _) as [_|Hne]; [reflexivity|].
  exfalso. apply Hne. lra.
Qed.

(** ** The handler *)

Section HandlerFacts.
Context {F : Type} `{Arith F}.
Context {num : Type} `{EqDecision num}.
Context {World : Type}.
Variable radians : F → F.
Variable cos : F → F.
Variable fmt : F → string.
Variable post : string → string → World → World * option (Response (OsmData (num := num))).

(** The two lists of the classifier together have one feature per
    valid way. *)
Lemma partition_length (elems : list (element (num := num))) :
  length (filter sealed_way elems) + length (filter unsealed_way elems) =
  length (filter (λ e, valid_way e = true) elems).
Proof.
  induction elems as [|e elems IH]; [reflexivity|].
  bool_cases (valid_way e) Hv.
  - rewrite (filter_cons_True (λ e, valid_way e = true)) by exact Hv.
    bool_cases (is_sealed (elem_tags_or_empty e)) Hs.
    + rewrite (filter_cons_True sealed_way) by (apply sealed_way_iff; auto).
      rewrite (filter_cons_False unsealed_way)
        by (intros [_ Hu]%unsealed_way_iff; congruence).
      cbn [length]. lia.
    + rewrite (filter_cons_False sealed_way)
        by (intros [_ Hu]%sealed_way_iff; congruence).
      rewrite (filter_cons_True unsealed_way) by (apply unsealed_way_iff; auto).
      cbn [length]. lia.
  - rewrite (filter_cons_False (λ e, valid_way e = true)) by congruence.
    rewrite (filter_cons_False sealed_way)
      by (intros [Hu _]%sealed_way_iff; congruence).
    rewrite (filter_cons_False unsealed_way)
      by (intros [Hu _]%unsealed_way_iff; congruence).
    exact IH.
Qed.

Lemma classify_and_convert_lengths (osm_data : OsmData (num := num)) :
  length (features (classify_and_convert osm_data).1) +
  length (features (classify_and_convert osm_data).2) =
  length (filter (λ e, valid_way e = true) (default [] (osm_elements osm_data))).
Proof.
  destruct osm_data as [[elems|] other].
  - rewrite classify_and_convert_elements. cbn [fst snd features osm_elements].
    rewrite !length_fmap. apply partition_length.
  - rewrite classify_and_convert_None. reflexivity.
Qed.

(** C9: when the box is computed and the fetch returns a response, the
    handler returns, with status "success", the two collections of the
    classifier and their lengths as counts; the counts add up to the
    number of valid ways of the response. *)
Theorem generate_layers_counts request w bbox w' (osm_data : OsmData (num := num)) :
  get_bbox radians cos (lat request) (lon request) (size_km request) = Some bbox →
  fetch_overpass_data post (build_combined_query fmt bbox) w = (w', inr osm_data) →
  ∃ response,
    generate_layers radians cos fmt post request w = (w', inr response) ∧
    status response = "success" ∧
    (sealed_geojson response, unsealed_geojson response)
      = classify_and_convert osm_data ∧
    sealed_count response = length (features (sealed_geojson response)) ∧
    unsealed_count response = length (features (unsealed_geojson response)) ∧
    sealed_count response + unsealed_count response =
      length (filter (λ e, valid_way e = true) (default [] (osm_elements osm_data))).
Proof.
  intros Hbox Hfetch. unfold generate_layers. rewrite Hbox, Hfetch.
  pose proof (classify_and_convert_lengths osm_data) as Hlen.
  destruct (classify_and_convert osm_data) as [sealed unsealed].
  eexists. split; [reflexivity|]. cbn.
  split; [reflexivity|]. split; [reflexivity|].
  split; [reflexivity|]. split; [reflexivity|]. exact Hlen.
Qed.
End HandlerFacts.

(** The specification's example, on the sample network: three valid
    ways, two sealed and one unsealed. *)
Example generate_layers_vienna :
  ∃ response,
    generate_layers radians64 cos_series fixed7 (logged_post sample_answer) vienna []
      = (OVERPASS_URLS, inr response) ∧
    status response = "success" ∧
    sealed_count response = 2 ∧ unsealed_count response = 1.
Proof. eexists. split; [vm_compute; reflexivity|]. repeat split. Qed.

Lemma generate_layers_counts_witness :
  ∃ response,
    generate_layers radians64 cos_series fixed7 (logged_post sample_answer) vienna []
      = (OVERPASS_URLS, inr response) ∧
    status response = "success" ∧
    (sealed_geojson response, unsealed_geojson response)
      = classify_and_convert sample_osm ∧
    sealed_count response = length (features (sealed_geojson response)) ∧
    unsealed_count response = length (features (unsealed_geojson response)) ∧
    sealed_count response + unsealed_count response =
      length (filter (λ e, valid_way e = true) sample_elements).
Proof.
  destruct vienna_bbox as [bbox|] eqn:Hbox; [|discriminate].
  apply (generate_layers_counts radians64 cos_series fixed7
           (logged_post sample_answer) vienna [] bbox OVERPASS_URLS sample_osm).
  - exact Hbox.
  - vm_compute. reflexivity.
Defined.

(** * Further properties *)

(** ** The classification rule *)

(** X1: tags can only be added towards sealed: when a tag mapping is
    sealed, every mapping that extends it is sealed too. *)
Theorem is_sealed_monotone (tags tags' : gmap string string) :
  tags ⊆ tags' → is_sealed tags = true → is_sealed tags' = true.
Proof.
  intros Hsub. rewrite !is_sealed_spec.
  intros [(key & Hkey & [v Hv])|[(v & Hv & Hin)|(v & Hv & Hin)]].
  - left. exists key. split; [exact Hkey|].
    exists v. exact (lookup_weaken _ _ _ _ Hv Hsub).
  - right; left. exists v. split; [exact (lookup_weaken _ _ _ _ Hv Hsub)|exact Hin].
  - right; right. exists v. split; [exact (lookup_weaken _ _ _ _ Hv Hsub)|exact Hin].
Qed.

Lemma is_sealed_monotone_witness :
  is_sealed {[ "building" := "yes"; "leisure" := "park" ]} = true.
Proof.
  apply (is_sealed_monotone {[ "building" := "yes" ]}).
  - apply insert_mono, insert_subseteq. reflexivity.
  - vm_compute. reflexivity.
Defined.

Lemma no_rule_key_unsealed (tags : gmap string string) :
  (∀ key, key ∈ rule_keys → tags !! key = None) → is_sealed tags = false.
Proof.
  intros Hnone. apply not_true_is_false. rewrite is_sealed_spec.
  assert (∀ key, key ∈ rule_keys → ¬ is_Some (tags !! key)) as Hno.
  { intros key Hin [v Hv]. rewrite (Hnone key Hin) in Hv. discriminate. }
  unfold rule_keys in *.
  intros [(key & Hkey & Hs)|[(v & Hv & _)|(v & Hv & _)]].
  - apply (Hno key); [|exact Hs].
    change (key ∈ ["building"; "highway"; "railway"; "aeroway"; "amenity"] ++
                   ["landuse"; "leisure"]).
    apply elem_of_app. left. exact Hkey.
  - apply (Hno "landuse"); [|eauto].
    repeat (apply list_elem_of_here || apply list_elem_of_further).
  - apply (Hno "leisure"); [|eauto].
    repeat (apply list_elem_of_here || apply list_elem_of_further).
Qed.

Section ClassifierMore.
Context {num : Type} `{EqDecision num}.
Implicit Types (e : element (num := num)) (elems : list (element (num := num))).

(** X2: a valid way that has none of the seven keys of the rule (a way
    without a [tags] member in particular) is kept, in the unsealed
    collection and not in the sealed one. *)
Theorem classify_and_convert_other_tags elems other e :
  let out := classify_and_convert {| osm_elements := Some elems; osm_other := other |} in
  e ∈ elems → valid_way e = true →
  (∀ key, key ∈ rule_keys → elem_tags_or_empty e !! key = None) →
  (feature_of e ∈ features (out.2)) ∧ (feature_of e ∉ features (out.1)).
Proof.
  intros out Hin Hv Hnone. subst out. rewrite classify_and_convert_elements.
  cbn [fst snd features].
  pose proof (no_rule_key_unsealed _ Hnone) as Hs.
  split.
  - apply (feature_in_unsealed _ _ Hin Hv). exact Hs.
  - intros Hf. apply (feature_in_sealed _ _ Hin Hv) in Hf. congruence.
Qed.

(** X3: the classifier works element by element: on the concatenation
    of two element lists each collection is the concatenation of the
    collections of the parts. *)
Theorem classify_and_convert_app elems1 elems2 other :
  let out := classify_and_convert {| osm_elements := Some (elems1 ++ elems2); osm_other := other |} in
  let out1 := classify_and_convert {| osm_elements := Some elems1; osm_other := other |} in
  let out2 := classify_and_convert {| osm_elements := Some elems2; osm_other := other |} in
  features (out.1) = features (out1.1) ++ features (out2.1) ∧
  features (out.2) = features (out1.2) ++ features (out2.2).
Proof.
  intros out out1 out2. subst out out1 out2.
  rewrite !classify_and_convert_elements. cbn [fst snd features].
  rewrite !filter_app, !fmap_app. split; reflexivity.
Qed.

(** X4: permuting the elements of the response permutes each
    collection: no feature changes side. *)
Theorem classify_and_convert_permutation elems elems' other :
  elems ≡ₚ elems' →
  let out := classify_and_convert {| osm_elements := Some elems; osm_other := other |} in
  let out' := classify_and_convert {| osm_elements := Some elems'; osm_other := other |} in
  features (out.1) ≡ₚ features (out'.1) ∧ features (out.2) ≡ₚ features (out'.2).
Proof.
  intros Hperm out out'. subst out out'.
  rewrite !classify_and_convert_elements. cbn [fst snd features].
  split; apply fmap_Permutation; rewrite Hperm; reflexivity.
Qed.

(** X5: closing is idempotent: a ring the code has closed is left as it
    is when closed again. *)
Theorem close_polygon_idempotent (coords : list (coord (num := num))) :
  close_polygon (close_polygon coords) = close_polygon coords.
Proof.
  destruct (head coords) as [c0|] eqn:Hhd.
  - destruct (close_polygon_closed coords c0 Hhd) as (c & Hh & Hl).
    destruct (close_polygon_cases _ c Hh) as [[_ Heq]|[Hne _]].
    + exact Heq.
    + destruct (Hne Hl).
  - apply head_None in Hhd. subst coords. reflexivity.
Qed.

(** X6: the ring of an output feature starts with the coordinate pairs
    of its way, longitude first, in the order of the nodes; it has as
    many positions as the way has nodes, or one more, and at least
    three. *)
Theorem classify_and_convert_ring_shape elems other f :
  let out := classify_and_convert {| osm_elements := Some elems; osm_other := other |} in
  f ∈ features (out.1) ++ features (out.2) →
  ∃ e nodes ring,
    e ∈ elems ∧ elem_geometry e = Some nodes ∧
    coordinates (geometry f) = [ring] ∧
    take (length nodes) ring = (λ nd, (node_lon nd, node_lat nd)) <$> nodes ∧
    3 ≤ length nodes ∧
    (length ring = length nodes ∨ length ring = S (length nodes)).
Proof.
  intros out. subst out. rewrite classify_and_convert_elements.
  cbn [fst snd features]. rewrite <- fmap_app.
  intros (e & -> & Hin)%list_elem_of_fmap.
  assert (e ∈ elems ∧ valid_way e = true) as [He Hv].
  { apply elem_of_app in Hin as [Hin|Hin];
      apply list_elem_of_filter in Hin as [Hp He]; split; try exact He.
    - apply sealed_way_iff in Hp. tauto.
    - apply unsealed_way_iff in Hp. tauto. }
  destruct (valid_way_head e Hv) as [c0 Hhd].
  unfold valid_way in Hv. apply andb_true_iff in Hv as [_ Hlen].
  destruct (elem_geometry e) as [nodes|] eqn:Hg; [|discriminate].
  apply Nat.leb_le in Hlen.
  exists e, nodes, (close_polygon (elem_coords e)).
  split; [exact He|]. split; [exact Hg|]. split; [reflexivity|].
  assert (elem_coords e = (λ nd, (node_lon nd, node_lat nd)) <$> nodes) as Hc.
  { unfold elem_coords. rewrite Hg. reflexivity. }
  assert (length (elem_coords e) = length nodes) as Hl
    by (rewrite Hc; apply length_fmap).
  destruct (close_polygon_cases _ _ Hhd) as [[_ ->]|[_ ->]].
  - rewrite <- Hl, firstn_all. split; [exact Hc|]. split; [lia|]. left. reflexivity.
  - rewrite <- Hl, take_app_length. split; [exact Hc|]. split; [lia|].
    right. rewrite length_app. cbn [length]. lia.
Qed.
End ClassifierMore.

Lemma classify_and_convert_other_tags_witness :
  (feature_of sample_wood ∈ features ((classify_and_convert
     {| osm_elements := Some [sample_building; sample_wood]; osm_other := ∅ |}).2)) ∧
  (feature_of sample_wood ∉ features ((classify_and_convert
     {| osm_elements := Some [sample_building; sample_wood]; osm_other := ∅ |}).1)).
Proof.
  apply (classify_and_convert_other_tags [sample_building; sample_wood] ∅ sample_wood).
  - apply list_elem_of_lookup. exists 1%nat. reflexivity.
  - vm_compute. reflexivity.
  - apply Forall_forall. unfold rule_keys.
    repeat (constructor; [vm_compute; reflexivity|]). constructor.
Defined.

Lemma classify_and_convert_permutation_witness :
  features ((classify_and_convert
     {| osm_elements := Some [sample_park; sample_building]; osm_other := ∅ |}).1)
  ≡ₚ features ((classify_and_convert
     {| osm_elements := Some [sample_building; sample_park]; osm_other := ∅ |}).1) ∧
  features ((classify_and_convert
     {| osm_elements := Some [sample_park; sample_building]; osm_other := ∅ |}).2)
  ≡ₚ features ((classify_and_convert
     {| osm_elements := Some [sample_building; sample_park]; osm_other := ∅ |}).2).
Proof.
  apply (classify_and_convert_permutation [sample_park; sample_building]
           [sample_building; sample_park] ∅).
  apply perm_swap.
Defined.

Lemma classify_and_convert_ring_shape_witness :
  ∃ e nodes ring,
    e ∈ sample_elements ∧ elem_geometry e = Some nodes ∧
    coordinates (geometry (feature_of sample_park)) = [ring] ∧
    take (length nodes) ring = (λ nd, (node_lon nd, node_lat nd)) <$> nodes ∧
    3 ≤ length nodes ∧
    (length ring = length nodes ∨ length ring = S (length nodes)).
Proof.
  apply (classify_and_convert_ring_shape sample_elements
           {[ "generator" := "Overpass API" ]} (feature_of sample_park)).
  apply list_elem_of_lookup. exists 2%nat. vm_compute. reflexivity.
Defined.

(** ** The fallback chain and the layers handler *)

Section OverpassMore.
Context {Dict World : Type}.
Variable post : string → string → World → World * option (Response Dict).

(** X7: fallback chains compose: trying [urls1 ++ urls2] is trying
    [urls1] and, only when all of it has failed, trying [urls2] from the
    state reached; endpoints after a success are never called. *)
Theorem fetch_from_app urls1 urls2 query w :
  fetch_from post (urls1 ++ urls2) query w =
    match fetch_from post urls1 query w with
    | (w', inr data) => (w', inr data)
    | (w', inl _) => fetch_from post urls2 query w'
    end.
Proof.
  revert w. induction urls1 as [|url urls1 IH]; intros w; cbn [app fetch_from].
  - reflexivity.
  - destruct (try_endpoint post url query w) as [w1 [data|]]; [reflexivity|].
    apply IH.
Qed.

Lemma fetch_from_all_fail urls : ∀ query w w',
  try_all post urls query w = (w', replicate (length urls) None) →
  fetch_from post urls query w = (w', inl unavailable).
Proof.
  induction urls as [|url urls IH]; intros query w w'; cbn [try_all fetch_from].
  - intros [= ->]. reflexivity.
  - destruct (try_endpoint post url query w) as [w1 r].
    destruct (try_all post urls query w1) as [w2 rs] eqn:Hrest.
    cbn [length replicate]. intros [= -> -> ->]. apply IH. exact Hrest.
Qed.
End OverpassMore.

Section HandlerMore.
Context {F : Type} `{Arith F}.
Context {num : Type} `{EqDecision num}.
Context {World : Type}.
Variable radians : F → F.
Variable cos : F → F.
Variable fmt : F → string.
Variable post : string → string → World → World * option (Response (OsmData (num := num))).

(** X8: the failures of the layers handler that come before the
    response is read.  When the box cannot be computed the handler
    raises [ZeroDivisionError] and has made no network call (the state
    is unchanged).  When the box is computed and every configured
    endpoint fails, each having been tried once and in order, the
    handler raises the 503 error of the fetch: nothing is classified
    and no response is built. *)
Theorem generate_layers_failures request w :
  (get_bbox radians cos (lat request) (lon request) (size_km request) = None →
   generate_layers radians cos fmt post request w = (w, inl ZeroDivisionError)) ∧
  (∀ bbox w',
     get_bbox radians cos (lat request) (lon request) (size_km request) = Some bbox →
     try_all post OVERPASS_URLS (build_combined_query fmt bbox) w
       = (w', replicate (length OVERPASS_URLS) None) →
     generate_layers radians cos fmt post request w = (w', inl unavailable)).
Proof.
  unfold generate_layers. split.
  - intros ->. reflexivity.
  - intros bbox w' -> Hall.
    unfold fetch_overpass_data. rewrite (fetch_from_all_fail post _ _ _ _ Hall).
    reflexivity.
Qed.
End HandlerMore.

(** All three servers down: the handler raises the 503 after calling
    each of them once, in order. *)
Example generate_layers_all_down :
  generate_layers (num := Z) radians64 cos_series fixed7 (logged_post (λ _, None))
    vienna [] = (OVERPASS_URLS, inl unavailable).
Proof. vm_compute. reflexivity. Qed.

(** ** The temperature handler *)

Section TemperatureFacts.
Context {F : Type} `{Arith F}.
Variable radians : F → F.
Variable cos : F → F.
Variable round2 : F → F.
Variable str_of : raised → string.
Variable engine : EarthEngine F.

Lemma get_surface_temperature_inl request e :
  surface_temperature_body radians cos round2 engine request = inl e →
  ∃ detail,
    get_surface_temperature radians cos round2 str_of engine request
      = inl (HTTPException 500 detail).
Proof.
  intros Hbody. unfold get_surface_temperature. rewrite Hbody.
  destruct e; eexists; reflexivity.
Qed.

(** X9: whatever goes wrong in the temperature handler reaches the
    caller as status 500.  In particular the 404 the code raises for an
    empty image collection is raised inside the [try], caught by the
    [except Exception] clause and replaced by a 500 whose detail quotes
    it: the handler never answers 404. *)
Theorem get_surface_temperature_errors request :
  ((∃ response,
      get_surface_temperature radians cos round2 str_of engine request = inr response) ∨
   (∃ detail,
      get_surface_temperature radians cos round2 str_of engine request
        = inl (HTTPException 500 detail))) ∧
  (∀ south west north east,
      get_bbox radians cos (lat request) (lon request) (size_km request)
        = Some (south, west, north, east) →
      collection_size engine (west, south, east, north) = inr 0%Z →
      get_surface_temperature radians cos round2 str_of engine request
        = inl (HTTPException 500
            ("Error fetching temperature data: " +:+
             str_of (HTTPRaised 404 no_imagery_detail)))).
Proof.
  split.
  - destruct (surface_temperature_body radians cos round2 engine request)
      as [e|response] eqn:Hbody.
    + right. exact (get_surface_temperature_inl request e Hbody).
    + left. exists response. unfold get_surface_temperature. rewrite Hbody.
      reflexivity.
  - intros south west north east Hbox Hsize.
    unfold get_surface_temperature, surface_temperature_body.
    rewrite Hbox. cbn [raise_bind]. rewrite Hsize. reflexivity.
Qed.

Lemma foldl_add_sample half (samples : list (Sample F)) : ∀ acc,
  foldl (add_sample round2 half) acc samples =
  acc ++ omap (sample_square round2 half) samples.
Proof.
  induction samples as [|f samples IH]; intros acc; cbn [foldl omap list_omap].
  - symmetry. apply app_nil_r.
  - rewrite IH. unfold add_sample, sample_square.
    destruct (mjoin (default ∅ (sample_properties f) !! "ST_B10")) as [v|];
      cbn [mbind option_bind].
    + rewrite <- app_assoc. reflexivity.
    + reflexivity.
Qed.

Lemma raise_bind_inr {A B} (m : raised + A) (k : A → raised + B) b :
  raise_bind m k = inr b → ∃ a, m = inr a ∧ k a = inr b.
Proof. destruct m as [e|a]; [discriminate|]. intros Hk. exists a. auto. Qed.

(** What a response says about the run that produced it. *)
Lemma surface_temperature_body_inr request response :
  surface_temperature_body radians cos round2 engine request = inr response →
  ∃ south west north east size date stats min_t max_t mean_t features_info,
    get_bbox radians cos (lat request) (lon request) (size_km request)
      = Some (south, west, north, east) ∧
    collection_size engine (west, south, east, north) = inr size ∧ size ≠ 0%Z ∧
    first_image_date engine (west, south, east, north) = inr date ∧
    reduce_region engine (west, south, east, north) = inr stats ∧
    stat_float stats "ST_B10_min" = inr min_t ∧
    stat_float stats "ST_B10_max" = inr max_t ∧
    stat_float stats "ST_B10_mean" = inr mean_t ∧
    sample_region engine (west, south, east, north) (sample_scale_m request)
      = inr features_info ∧
    response = {|
      temperature_data := {|
        tc_type := "FeatureCollection";
        tc_features :=
          omap (sample_square round2 (half_size request)) (default [] features_info) |};
      min_temp := round2 min_t;
      max_temp := round2 max_t;
      mean_temp := round2 mean_t;
      temperature_status := "success";
      image_date := date |}.
Proof.
  unfold surface_temperature_body.
  destruct (get_bbox radians cos (lat request) (lon request) (size_km request))
    as [[[[south west] north] east]|]; [|discriminate].
  intros (size & Hsize & Hrest)%raise_bind_inr.
  destruct (Z.eqb_spec size 0) as [|Hne]; [discriminate|].
  apply raise_bind_inr in Hrest as (date & Hdate & Hrest).
  apply raise_bind_inr in Hrest as (stats & Hstats & Hrest).
  apply raise_bind_inr in Hrest as (min_t & Hmin & Hrest).
  apply raise_bind_inr in Hrest as (max_t & Hmax & Hrest).
  apply raise_bind_inr in Hrest as (mean_t & Hmean & Hrest).
  apply raise_bind_inr in Hrest as (features_info & Hfeat & Hrest).
  rewrite foldl_add_sample in Hrest. cbn [app] in Hrest.
  injection Hrest as <-.
  exists south, west, north, east, size, date, stats, min_t, max_t, mean_t, features_info.
  repeat (split; [first [assumption|reflexivity]|]). reflexivity.
Qed.

Lemma get_surface_temperature_inr request response :
  get_surface_temperature radians cos round2 str_of engine request = inr response →
  surface_temperature_body radians cos round2 engine request = inr response.
Proof.
  unfold get_surface_temperature.
  destruct (surface_temperature_body radians cos round2 engine request)
    as [[]|r]; try discriminate.
  intros [= ->]. reflexivity.
Qed.
End TemperatureFacts.

Lemma omap_length_le {A B} (f : A → option B) (l : list A) :
  length (omap f l) ≤ length l.
Proof.
  induction l as [|x l IH]; cbn [omap list_omap length]; [lia|].
  destruct (f x); cbn [length]; lia.
Qed.

Section TemperatureResults.
Context {F : Type} `{Arith F}.
Variable radians : F → F.
Variable cos : F → F.
Variable round2 : F → F.
Variable str_of : raised → string.
Variable engine : EarthEngine F.

(** X10: a response holds one square per sampled point that has a
    value, in the order of the points; points whose value is missing or
    null, or that have no properties, are left out.  The points are
    those the server returns for the rectangle [[west, south, east,
    north]] of the box at the sampling scale of the request. *)
Theorem get_surface_temperature_features request response :
  get_surface_temperature radians cos round2 str_of engine request = inr response →
  ∃ south west north east features_info,
    get_bbox radians cos (lat request) (lon request) (size_km request)
      = Some (south, west, north, east) ∧
    sample_region engine (west, south, east, north) (sample_scale_m request)
      = inr features_info ∧
    tc_features (temperature_data response) =
      omap (sample_square round2 (half_size request)) (default [] features_info) ∧
    length (tc_features (temperature_data response)) ≤ length (default [] features_info) ∧
    temperature_status response = "success".
Proof.
  intros Hres%get_surface_temperature_inr.
  apply surface_temperature_body_inr in Hres as
    (south & west & north & east & size & date & stats & min_t & max_t & mean_t &
     features_info & Hbox & _ & _ & _ & _ & _ & _ & _ & Hfeat & ->).
  exists south, west, north, east, features_info.
  cbn [temperature_data tc_features temperature_status].
  split; [exact Hbox|]. split; [exact Hfeat|]. split; [reflexivity|].
  split; [apply omap_length_le|reflexivity].
Qed.

Lemma stat_float_inr (stats : gmap string (option F)) key v :
  stat_float stats key = inr v →
  stats !! key ≠ Some None ∧ v = stat_or_zero stats key.
Proof.
  unfold stat_float, stat_or_zero.
  destruct (stats !! key) as [[w|]|]; [| discriminate |].
  - intros [= ->]. split; [discriminate|reflexivity].
  - intros [= <-]. split; [discriminate|reflexivity].
Qed.

(** X11: the minimum, maximum and mean of a response are the rounded
    statistics of the server, a statistic missing from its answer being
    reported as [0.0]; none of the three was null. *)
Theorem get_surface_temperature_stats request response :
  get_surface_temperature radians cos round2 str_of engine request = inr response →
  ∃ south west north east stats,
    get_bbox radians cos (lat request) (lon request) (size_km request)
      = Some (south, west, north, east) ∧
    reduce_region engine (west, south, east, north) = inr stats ∧
    (∀ key, key ∈ stat_keys → stats !! key ≠ Some None) ∧
    min_temp response = round2 (stat_or_zero stats "ST_B10_min") ∧
    max_temp response = round2 (stat_or_zero stats "ST_B10_max") ∧
    mean_temp response = round2 (stat_or_zero stats "ST_B10_mean").
Proof.
  intros Hres%get_surface_temperature_inr.
  apply surface_temperature_body_inr in Hres as
    (south & west & north & east & size & date & stats & min_t & max_t & mean_t &
     features_info & Hbox & _ & _ & _ & Hstats & Hmin & Hmax & Hmean & _ & ->).
  apply stat_float_inr in Hmin as [Hmin ->], Hmax as [Hmax ->], Hmean as [Hmean ->].
  exists south, west, north, east, stats.
  cbn [min_temp max_temp mean_temp].
  split; [exact Hbox|]. split; [exact Hstats|]. split; [|auto].
  intros key Hkey. unfold stat_keys in Hkey.
  apply elem_of_cons in Hkey as [->|Hkey]; [exact Hmin|].
  apply elem_of_cons in Hkey as [->|Hkey]; [exact Hmax|].
  apply elem_of_cons in Hkey as [->|Hkey]; [exact Hmean|].
  inversion Hkey.
Qed.

(** X12: a null statistic (what the server reports over a region
    without valid pixels) makes the handler fail with status 500: the
    conversion [float(None)] raises inside the [try]. *)
Theorem get_surface_temperature_null_stat request south west north east
    size date stats key :
  get_bbox radians cos (lat request) (lon request) (size_km request)
    = Some (south, west, north, east) →
  collection_size engine (west, south, east, north) = inr size → size ≠ 0%Z →
  first_image_date engine (west, south, east, north) = inr date →
  reduce_region engine (west, south, east, north) = inr stats →
  key ∈ stat_keys → stats !! key = Some None →
  get_surface_temperature radians cos round2 str_of engine request
    = inl (HTTPException 500
        ("Error fetching temperature data: " +:+ str_of FloatOfNone)).
Proof.
  intros Hbox Hsize Hne Hdate Hstats Hkey Hnull.
  assert (surface_temperature_body radians cos round2 engine request = inl FloatOfNone)
    as Hbody.
  { unfold surface_temperature_body. rewrite Hbox. cbn [raise_bind].
    rewrite Hsize. cbn [raise_bind].
    destruct (Z.eqb_spec size 0) as [|_]; [contradiction|].
    rewrite Hdate. cbn [raise_bind]. rewrite Hstats. cbn [raise_bind].
    assert (∀ k, stat_float stats k = inl FloatOfNone ∨ ∃ v, stat_float stats k = inr v)
      as Hcases.
    { intros k. unfold stat_float. destruct (stats !! k) as [[v|]|]; eauto. }
    assert (stat_float stats key = inl FloatOfNone) as Hk
      by (unfold stat_float; rewrite Hnull; reflexivity).
    unfold stat_keys in Hkey.
    apply elem_of_cons in Hkey as [->|Hkey]; [rewrite Hk; reflexivity|].
    destruct (Hcases "ST_B10_min") as [->|[v1 ->]]; [reflexivity|]. cbn [raise_bind].
    apply elem_of_cons in Hkey as [->|Hkey]; [rewrite Hk; reflexivity|].
    destruct (Hcases "ST_B10_max") as [->|[v2 ->]]; [reflexivity|]. cbn [raise_bind].
    apply elem_of_cons in Hkey as [->|Hkey]; [rewrite Hk; reflexivity|].
    inversion Hkey. }
  unfold get_surface_temperature. rewrite Hbody. reflexivity.
Qed.
End TemperatureResults.

Lemma get_surface_temperature_features_witness :
  ∃ response south west north east features_info,
    get_surface_temperature radians64 cos_series sample_round2 sample_str
      sample_engine vienna = inr response ∧
    get_bbox radians64 cos_series (lat vienna) (lon vienna) (size_km vienna)
      = Some (south, west, north, east) ∧
    sample_region sample_engine (west, south, east, north) (sample_scale_m vienna)
      = inr features_info ∧
    tc_features (temperature_data response) =
      omap (sample_square sample_round2 (half_size vienna)) (default [] features_info) ∧
    length (tc_features (temperature_data response)) ≤ length (default [] features_info) ∧
    temperature_status response = "success".
Proof.
  destruct vienna_temperature as [e|response] eqn:Hrun; [discriminate|].
  assert (get_surface_temperature radians64 cos_series sample_round2 sample_str
            sample_engine vienna = inr response) as Hres by exact Hrun.
  destruct (get_surface_temperature_features radians64 cos_series sample_round2
              sample_str sample_engine vienna response Hres)
    as (south & west & north & east & features_info & Hrest).
  exists response, south, west, north, east, features_info.
  split; [exact Hres|exact Hrest].
Defined.

Lemma get_surface_temperature_stats_witness :
  ∃ response south west north east stats,
    get_surface_temperature radians64 cos_series sample_round2 sample_str
      sample_engine vienna = inr response ∧
    get_bbox radians64 cos_series (lat vienna) (lon vienna) (size_km vienna)
      = Some (south, west, north, east) ∧
    reduce_region sample_engine (west, south, east, north) = inr stats ∧
    (∀ key, key ∈ stat_keys → stats !! key ≠ Some None) ∧
    min_temp response = sample_round2 (stat_or_zero stats "ST_B10_min") ∧
    max_temp response = sample_round2 (stat_or_zero stats "ST_B10_max") ∧
    mean_temp response = sample_round2 (stat_or_zero stats "ST_B10_mean").
Proof.
  destruct vienna_temperature as [e|response] eqn:Hrun; [discriminate|].
  assert (get_surface_temperature radians64 cos_series sample_round2 sample_str
            sample_engine vienna = inr response) as Hres by exact Hrun.
  destruct (get_surface_temperature_stats radians64 cos_series sample_round2
              sample_str sample_engine vienna response Hres)
    as (south & west & north & east & stats & Hrest).
  exists response, south, west, north, east, stats.
  split; [exact Hres|exact Hrest].
Defined.

Lemma get_surface_temperature_null_stat_witness :
  get_surface_temperature radians64 cos_series sample_round2 sample_str
    null_engine vienna
  = inl (HTTPException 500
      ("Error fetching temperature data: " +:+ sample_str FloatOfNone)).
Proof.
  destruct vienna_bbox as [[[[south west] north] east]|] eqn:Hbox; [|discriminate].
  apply (get_surface_temperature_null_stat radians64 cos_series sample_round2
           sample_str null_engine vienna south west north east 1%Z "2024-06-01"
           {[ "ST_B10_min" := Some (lit 18.204); "ST_B10_max" := None ]} "ST_B10_max").
  - exact Hbox.
  - reflexivity.
  - discriminate.
  - reflexivity.
  - reflexivity.
  - unfold stat_keys. apply list_elem_of_further, list_elem_of_here.
  - vm_compute. reflexivity.
Defined.

(** The handler on the sample servers. *)
Example get_surface_temperature_sample :
  ∃ response,
    vienna_temperature = inr response ∧
    length (tc_features (temperature_data response)) = 1 ∧
    mean_temp response = lit 0 ∧ image_date response = "2024-06-01".
Proof. eexists. split; [reflexivity|]. vm_compute. auto. Qed.

Example get_surface_temperature_empty :
  get_surface_temperature radians64 cos_series sample_round2 sample_str
    empty_engine vienna
  = inl (HTTPException 500
      ("Error fetching temperature data: 404: " +:+ no_imagery_detail)).
Proof. vm_compute. reflexivity. Qed.

(** ** The sampling grid in exact arithmetic *)

Lemma sample_scale_m_exact (request : LayerRequest R) :
  sample_scale_m (H := exact) request = Rmax (size_km request * 1000 / 50) 30.
Proof.
  unfold sample_scale_m, pymax, grid_size.
  cbn [mul quot ltb exact rounded].
  rewrite !exact_lit, !Q2R_lit. unfold Rltb, Rmax.
  destruct (Rlt_dec _ _) as [Hlt|Hge]; destruct (Rle_dec _ _) as [Hle|Hgt]; lra.
Qed.

Lemma half_size_exact (request : LayerRequest R) :
  half_size (H := exact) request
  = (Rmax (size_km request * 1000 / 50) 30 / 111320)%R.
Proof.
  unfold half_size. rewrite sample_scale_m_exact. cbn [quot exact rounded].
  rewrite exact_lit, Q2R_lit. lra.
Qed.

(** X13: in exact arithmetic the sampling scale is never below 30
    metres, whatever the size; it is 30 for every size up to 1.5 km and
    20 metres per kilometre of size above; for a valid size it is at
    most 200, so the half-width lies between [30/111320] and
    [200/111320] degrees. *)
Theorem sample_scale_m_range (request : LayerRequest R) :
  (30 <= sample_scale_m (H := exact) request)%R ∧
  ((size_km request <= 3/2)%R → sample_scale_m (H := exact) request = 30%R) ∧
  ((3/2 <= size_km request)%R →
     sample_scale_m (H := exact) request = (size_km request * 20)%R) ∧
  ((1/2 <= size_km request <= 10)%R →
     (sample_scale_m (H := exact) request <= 200)%R ∧
     (30/111320 <= half_size (H := exact) request <= 200/111320)%R).
Proof.
  rewrite half_size_exact, sample_scale_m_exact. unfold Rmax.
  destruct (Rle_dec _ _) as [Hle|Hgt]; repeat split; intros; lra.
Qed.

Section ExactSquares.
Variable radians : R → R.
Variable cos : R → R.
Variable round2 : R → R.
Variable str_of : raised → string.
Variable engine : EarthEngine R.

(** X14: in exact arithmetic every feature of a temperature response
    comes from one of the points the server sampled for the rectangle of
    the box, a point whose [ST_B10] value is present and not null.  It
    is a "Feature" whose geometry is a "Polygon" with a single ring of
    five positions: the corners [(x − h, y − h)], [(x + h, y − h)],
    [(x + h, y + h)], [(x − h, y + h)] of the square around the point
    [(x, y)], and the first corner again, where [h] is
    [max(size_km × 1000 / 50, 30) / 111320] and is positive; its
    temperature is the rounded value of the point. *)
Theorem get_surface_temperature_squares request response tf :
  get_surface_temperature (H := exact) radians cos round2 str_of engine request
    = inr response →
  tf ∈ tc_features (temperature_data response) →
  ∃ south west north east features_info f temp_val,
    get_bbox (H := exact) radians cos (lat request) (lon request) (size_km request)
      = Some (south, west, north, east) ∧
    sample_region engine (west, south, east, north) (sample_scale_m (H := exact) request)
      = inr features_info ∧
    f ∈ default [] features_info ∧
    default ∅ (sample_properties f) !! "ST_B10" = Some (Some temp_val) ∧
    tf_type tf = "Feature" ∧
    geometry_type (tf_geometry tf) = "Polygon" ∧
    tf_temperature tf = round2 temp_val ∧
    let h := (Rmax (size_km request * 1000 / 50) 30 / 111320)%R in
    let x := sample_lon f in
    let y := sample_lat f in
    (0 < h)%R ∧
    coordinates (tf_geometry tf) =
      [[ (x - h, y - h); (x + h, y - h); (x + h, y + h); (x - h, y + h);
         (x - h, y - h) ]]%R.
Proof.
  intros Hres%get_surface_temperature_inr Hin.
  apply surface_temperature_body_inr in Hres as
    (south & west & north & east & size & date & stats & min_t & max_t & mean_t &
     features_info & Hbox & _ & _ & _ & _ & _ & _ & _ & Hfeat & ->).
  cbn [temperature_data tc_features] in Hin.
  apply list_elem_of_omap in Hin as (f & Hf & Hsq).
  unfold sample_square in Hsq. rewrite half_size_exact in Hsq.
  destruct (default ∅ (sample_properties f) !! "ST_B10") as [[temp_val|]|] eqn:Hval;
    try discriminate.
  cbn [mjoin option_join mbind option_bind] in Hsq. injection Hsq as <-.
  exists south, west, north, east, features_info, f, temp_val.
  split; [exact Hbox|]. split; [exact Hfeat|]. split; [exact Hf|].
  split; [exact Hval|]. split; [reflexivity|]. split; [reflexivity|].
  split; [reflexivity|]. cbv zeta. split.
  - unfold Rmax. destruct (Rle_dec _ _); lra.
  - reflexivity.
Qed.
End ExactSquares.

Lemma get_bbox_exact_equator (center_lon square_size_km : R) :
  ∃ bbox, get_bbox (H := exact) Rradians Rtrigo_def.cos 0%R center_lon square_size_km
          = Some bbox.
Proof.
  unfold get_bbox, truediv. cbn [lit mul eqb exact rounded].
  replace (Rradians 0) with 0%R by (unfold Rradians; lra).
  rewrite cos_0, !Q2R_lit. unfold Reqb.
  destruct (Req_dec_T _ _) as [Heq|_]; [exfalso; lra|].
  eexists. reflexivity.
Qed.

Lemma get_surface_temperature_equator :
  ∃ response,
    get_surface_temperature (H := exact) Rradians Rtrigo_def.cos (λ x, x) sample_str
      exact_engine equator = inr response ∧
    tc_features (temperature_data response) = [equator_square].
Proof.
  unfold get_surface_temperature, surface_temperature_body.
  destruct (get_bbox_exact_equator (lon equator) (size_km equator))
    as [[[[south west] north] east] Hbox].
  change 0%R with (lat equator) in Hbox. rewrite Hbox.
  eexists. split; reflexivity.
Qed.

Lemma get_surface_temperature_squares_witness :
  ∃ (south west north east : R) features_info f temp_val,
    get_bbox (H := exact) Rradians Rtrigo_def.cos (lat equator) (lon equator)
      (size_km equator) = Some (south, west, north, east) ∧
    sample_region exact_engine (west, south, east, north)
      (sample_scale_m (H := exact) equator) = inr features_info ∧
    f ∈ default [] features_info ∧
    default ∅ (sample_properties f) !! "ST_B10" = Some (Some temp_val) ∧
    tf_type equator_square = "Feature" ∧
    geometry_type (tf_geometry equator_square) = "Polygon" ∧
    tf_temperature equator_square = temp_val ∧
    let h := (Rmax (size_km equator * 1000 / 50) 30 / 111320)%R in
    let x := sample_lon f in
    let y := sample_lat f in
    (0 < h)%R ∧
    coordinates (tf_geometry equator_square) =
      [[ (x - h, y - h); (x + h, y - h); (x + h, y + h); (x - h, y + h);
         (x - h, y - h) ]]%R.
Proof.
  destruct get_surface_temperature_equator as (response & Hres & Hfeat).
  apply (get_surface_temperature_squares Rradians Rtrigo_def.cos (λ x, x) sample_str
           exact_engine equator response equator_square Hres).
  rewrite Hfeat. apply list_elem_of_here.
Defined.

(** ** The bounding box in exact arithmetic *)

Lemma cos_radians_pos (latitude : R) :
  (-90 < latitude < 90)%R → (0 < Rtrigo_def.cos (Rradians latitude) <= 1)%R.
Proof.
  intros Hlat. pose proof PI_RGT_0 as Hpi. unfold Rradians. split.
  - apply cos_gt_0; nra.
  - apply COS_bound.
Qed.

Lemma get_bbox_exact_value (center_lat center_lon square_size_km : R) :
  Rtrigo_def.cos (Rradians center_lat) ≠ 0%R →
  get_bbox (H := exact) Rradians Rtrigo_def.cos center_lat center_lon square_size_km
  = Some ((center_lat - square_size_km / 2 / 111)%R,
          (center_lon - square_size_km / 2 / (111 * Rtrigo_def.cos (Rradians center_lat)))%R,
          (center_lat + square_size_km / 2 / 111)%R,
          (center_lon + square_size_km / 2 / (111 * Rtrigo_def.cos (Rradians center_lat)))%R).
Proof.
  intros Hcos. unfold get_bbox, truediv.
  cbn [lit add sub mul quot eqb exact rounded]. rewrite !Q2R_lit.
  unfold Reqb. destruct (Req_dec_T _ _) as [Heq|_].
  - exfalso. apply Hcos.
    replace (1110 / 10)%R with 111%R in Heq by lra.
    replace (0 / 1)%R with 0%R in Heq by lra.
    apply Rmult_integral in Heq as [Heq|Heq]; [lra|exact Heq].
  - cbn [mbind option_bind].
    replace (1110 / 10)%R with 111%R by lra. replace (2 / 1)%R with 2%R by lra.
    reflexivity.
Qed.

(** X15: the box fails to be computed (the last division raises
    [ZeroDivisionError]) exactly when the computed divisor
    [111.0 * cos(radians(lat))] equals zero, in any arithmetic.  In
    exact arithmetic, among the latitudes a request may carry, that is
    exactly at the two poles. *)
Theorem get_bbox_raises :
  (∀ (F : Type) (A : Arith F) (radians cos : F → F)
     (center_lat center_lon square_size_km : F),
      get_bbox radians cos center_lat center_lon square_size_km = None ↔
      (lit 111.0 ⊗ cos (radians center_lat) ≐ lit 0) = true) ∧
  (∀ center_lat center_lon square_size_km : R,
      (-90 <= center_lat <= 90)%R →
      get_bbox (H := exact) Rradians Rtrigo_def.cos center_lat center_lon square_size_km
        = None ↔ center_lat = 90%R ∨ center_lat = (-90)%R).
Proof.
  split.
  - intros F A radians cos center_lat center_lon square_size_km.
    unfold get_bbox, truediv.
    destruct (lit 111.0 ⊗ cos (radians center_lat) ≐ lit 0);
      cbn [mbind option_bind]; split; congruence.
  - intros center_lat center_lon square_size_km Hlat. split.
    + intros Hnone.
      destruct (Req_dec_T center_lat 90) as [->|H90]; [left; reflexivity|].
      destruct (Req_dec_T center_lat (-90)) as [->|H90']; [right; reflexivity|].
      exfalso.
      assert (-90 < center_lat < 90)%R as Hopen by lra.
      apply cos_radians_pos in Hopen.
      rewrite get_bbox_exact_value in Hnone by lra. discriminate.
    + assert (Rtrigo_def.cos (Rradians center_lat) = 0%R →
              get_bbox (H := exact) Rradians Rtrigo_def.cos center_lat center_lon
                square_size_km = None) as Hzero.
      { intros Hcos. unfold get_bbox, truediv.
        cbn [lit mul eqb exact rounded]. rewrite Hcos, !Q2R_lit.
        unfold Reqb. destruct (Req_dec_T _ _) as [_|Hne]; [reflexivity|].
        exfalso. apply Hne. lra. }
      intros [->| ->]; apply Hzero.
      * replace (Rradians 90) with (PI / 2)%R by (unfold Rradians; lra).
        apply cos_PI2.
      * replace (Rradians (-90)) with (- (PI / 2))%R by (unfold Rradians; lra).
        rewrite cos_neg. apply cos_PI2.
Qed.

(** X16: in exact arithmetic, away from the poles, the box is
    [size_km / 111] degrees tall and, measured along its parallel, as
    wide as it is tall ([width × cos(lat) = height]), hence at least as
    wide in degrees as tall.  Nothing is clamped: within
    [size_km / 222] degrees of a pole the box reaches beyond latitude
    90 (or −90). *)
Theorem get_bbox_exact_extent (center_lat center_lon square_size_km : R) :
  (-90 < center_lat < 90)%R → (0 < square_size_km)%R →
  ∃ south west north east,
    get_bbox (H := exact) Rradians Rtrigo_def.cos center_lat center_lon square_size_km
      = Some (south, west, north, east) ∧
    (north - south = square_size_km / 111)%R ∧
    ((east - west) * Rtrigo_def.cos (Rradians center_lat) = north - south)%R ∧
    (north - south <= east - west)%R ∧
    ((90 - square_size_km / 222 < center_lat)%R → (90 < north)%R) ∧
    ((center_lat < -90 + square_size_km / 222)%R → (south < -90)%R).
Proof.
  intros Hlat Hsize. pose proof (cos_radians_pos center_lat Hlat) as Hcos.
  rewrite get_bbox_exact_value by lra.
  set (c := Rtrigo_def.cos (Rradians center_lat)) in *.
  eexists _, _, _, _. split; [reflexivity|].
  assert (square_size_km / 2 / (111 * c) * c = square_size_km / 222)%R as Hw
    by (field; lra).
  assert (square_size_km / 222 <= square_size_km / 2 / (111 * c))%R as Hge.
  { rewrite <- Hw at 1.
    rewrite <- (Rmult_1_r (square_size_km / 2 / (111 * c))) at 2.
    apply Rmult_le_compat_l; [|lra].
    apply Rlt_le, Rdiv_lt_0_compat; [lra|]. apply Rmult_lt_0_compat; lra. }
  split; [lra|]. split; [nra|]. split; [lra|]. split; intros; lra.
Qed.

Lemma get_bbox_exact_extent_witness :
  ∃ south west north east : R,
    get_bbox (H := exact) Rradians Rtrigo_def.cos 89.999%R 16.3738%R 1%R
      = Some (south, west, north, east) ∧
    (north - south = 1 / 111)%R ∧
    ((east - west) * Rtrigo_def.cos (Rradians 89.999) = north - south)%R ∧
    (north - south <= east - west)%R ∧
    (90 < north)%R.
Proof.
  destruct (get_bbox_exact_extent 89.999%R 16.3738%R 1%R ltac:(lra) ltac:(lra))
    as (south & west & north & east & Hbox & Hh & Hw & Hle & Hn & _).
  exists south, west, north, east.
  split; [exact Hbox|]. split; [exact Hh|]. split; [exact Hw|].
  split; [exact Hle|]. apply Hn. lra.
Defined.

(** In binary64 too the box leaves the range of latitudes near a pole:
    the north edge does not depend on the cosine. *)
Example get_bbox_binary64_beyond_pole :
  ∀ radians cos south west north east,
    get_bbox (H := binary64) radians cos (lit 89.999) (lit 16.3738) (lit 1.0)
      = Some (south, west, north, east) →
    (lit 90 ≺ north) = true.
Proof.
  intros radians cos south west north east Hbox. unfold get_bbox in Hbox.
  destruct (_ ⨸ _) as [lon_offset|]; [|discriminate].
  cbn [mbind option_bind] in Hbox. injection Hbox as _ _ <- _.
  vm_compute. reflexivity.
Qed.

(** ** The query *)

Lemma string_app_cons c (a b : string) : String c a +:+ b = String c (a +:+ b).
Proof. reflexivity. Qed.

Lemma string_app_length (a b : string) :
  String.length (a +:+ b) = String.length a + String.length b.
Proof.
  induction a as [|c a IH]; [reflexivity|].
  rewrite string_app_cons. cbn [String.length]. rewrite IH. reflexivity.
Qed.

Lemma string_app_assoc (a b c : string) : (a +:+ b) +:+ c = a +:+ (b +:+ c).
Proof.
  induction a as [|x a IH]; [reflexivity|].
  rewrite !string_app_cons, IH. reflexivity.
Qed.

Lemma string_app_inv_length (a a' x y : string) :
  String.length a = String.length a' → a +:+ x = a' +:+ y → a = a'.
Proof.
  revert a'. induction a as [|c a IH]; intros [|c' a']; try discriminate.
  - reflexivity.
  - rewrite !string_app_cons. intros [= Hlen] [= -> Heq]. f_equal. by apply IH.
Qed.

(** X17: the query starts with the settings line and the first [way]
    statement, whose box is the text [south,west,north,east] of the
    box, in that order; the text occurs ten times, the rest of the
    query being 572 characters; and the query determines the text: two
    boxes with the same query are printed the same. *)
Theorem build_combined_query_box {F : Type} (fmt : F → string) (bbox : F * F * F * F) :
  (∃ rest,
      build_combined_query fmt bbox =
      nl +:+ "[out:json][timeout:90][maxsize:536870912];" +:+ nl +:+ "(" +:+ nl +:+
      "  way[building](" +:+ bbox_text fmt bbox +:+ ");" +:+ nl +:+ rest) ∧
  String.length (build_combined_query fmt bbox) =
    572 + 10 * String.length (bbox_text fmt bbox) ∧
  (∀ bbox', build_combined_query fmt bbox = build_combined_query fmt bbox' →
            bbox_text fmt bbox = bbox_text fmt bbox').
Proof.
  assert (∀ bb : F * F * F * F,
            String.length (build_combined_query fmt bb) =
            572 + 10 * String.length (bbox_text fmt bb)) as Hlength.
  { intros [[[b0 b1] b2] b3]. unfold build_combined_query.
    change (fmt b0 +:+ "," +:+ fmt b1 +:+ "," +:+ fmt b2 +:+ "," +:+ fmt b3)
      with (bbox_text fmt (b0, b1, b2, b3)).
    generalize (bbox_text fmt (b0, b1, b2, b3)). intros b.
    unfold quoted. rewrite !string_app_length.
    change (String.length nl) with 1. change (String.length dq) with 1.
    cbn [String.length]. lia. }
  split; [|split; [apply Hlength|]].
  - destruct bbox as [[[b0 b1] b2] b3]. unfold build_combined_query.
    change (fmt b0 +:+ "," +:+ fmt b1 +:+ "," +:+ fmt b2 +:+ "," +:+ fmt b3)
      with (bbox_text fmt (b0, b1, b2, b3)).
    generalize (bbox_text fmt (b0, b1, b2, b3)). intros b.
    rewrite !string_app_assoc. eexists. reflexivity.
  - intros bbox' Heq.
    assert (String.length (bbox_text fmt bbox) = String.length (bbox_text fmt bbox'))
      as Hlen.
    { pose proof (Hlength bbox) as H1. pose proof (Hlength bbox') as H2.
      rewrite Heq in H1. lia. }
    destruct bbox as [[[b0 b1] b2] b3], bbox' as [[[b0' b1'] b2'] b3'].
    unfold build_combined_query in Heq.
    change (fmt b0 +:+ "," +:+ fmt b1 +:+ "," +:+ fmt b2 +:+ "," +:+ fmt b3)
      with (bbox_text fmt (b0, b1, b2, b3)) in Heq.
    change (fmt b0' +:+ "," +:+ fmt b1' +:+ "," +:+ fmt b2' +:+ "," +:+ fmt b3')
      with (bbox_text fmt (b0', b1', b2', b3')) in Heq.
    revert Hlen Heq.
    generalize (bbox_text fmt (b0, b1, b2, b3)) (bbox_text fmt (b0', b1', b2', b3')).
    intros b b' Hlen Heq.
    rewrite !string_app_assoc in Heq.
    do 8 apply (inj (String.append _)) in Heq.
    exact (string_app_inv_length _ _ _ _ Hlen Heq).
Qed.

(** X18: the query and the classifier agree on the categories.  The
    query is the settings line, one [way] statement per filter of
    [sealed_filters] and then of [unsealed_filters], all on the same
    box, and the closing [out geom;].  A way that passes one of the
    seven sealed filters is classified sealed, whatever its other tags;
    and the values the three unsealed filters ask for are unsealed
    ones: a way whose only tag is such a key and value is classified
    unsealed. *)
Theorem query_filters_consistent :
  (∀ (F : Type) (fmt : F → string) (bbox : F * F * F * F),
     build_combined_query fmt bbox =
       nl +:+ "[out:json][timeout:90][maxsize:536870912];" +:+ nl +:+ "(" +:+ nl +:+
       foldr (λ f rest, way_statement (bbox_text fmt bbox) f +:+ rest)
             (");" +:+ nl +:+ "out geom;" +:+ nl)
             (sealed_filters ++ unsealed_filters)) ∧
  (∀ f tags, f ∈ sealed_filters → filter_matches f tags → is_sealed tags = true) ∧
  (∀ key values v, KeyIn key values ∈ unsealed_filters → v ∈ values →
     is_sealed {[ key := v ]} = false).
Proof.
  split; [intros F fmt [[[b0 b1] b2] b3]; reflexivity|].
  split.
  - intros f tags Hf Hm. apply is_sealed_spec. unfold sealed_filters in Hf.
    repeat (apply elem_of_cons in Hf as [->|Hf]); [..|inversion Hf];
      cbn [filter_matches] in Hm.
    + left. exists "building". split; [|exact Hm].
      repeat (apply list_elem_of_here || apply list_elem_of_further).
    + left. exists "amenity". split; [|rewrite Hm; eauto].
      repeat (apply list_elem_of_here || apply list_elem_of_further).
    + right; left. destruct Hm as (v & Hv & Hl). exists v. auto.
    + left. exists "highway". split; [|exact Hm].
      repeat (apply list_elem_of_here || apply list_elem_of_further).
    + left. exists "railway". split; [|exact Hm].
      repeat (apply list_elem_of_here || apply list_elem_of_further).
    + left. destruct Hm as (v & _ & Hl). exists "aeroway". split; [|rewrite Hl; eauto].
      repeat (apply list_elem_of_here || apply list_elem_of_further).
    + right; right. destruct Hm as (v & Hv & Hl). exists v. auto.
  - intros key values v Hf Hv. unfold unsealed_filters in Hf.
    repeat (apply elem_of_cons in Hf as [[= -> ->]|Hf]); [..|inversion Hf];
      repeat (apply elem_of_cons in Hv as [->|Hv]; [vm_compute; reflexivity|]);
      inversion Hv.
Qed.
